(** * Model of hds-osc: the health record, the HDS push receiver, the
    exporters (WebSocket/HTTP server, OSC sender, Prometheus endpoint) and
    the reconnect loop of the WebSocket pull receiver.

    Source files: [receive.go] (the multi-key variant, unnamed/part_004) and
    [export.go] (the healthData variant, unnamed/part_002). *)

From Stdlib Require Import ZArith List String Ascii Bool Lia.
From Stdlib Require Import PrimFloat FloatOps Uint63.
Import ListNotations.
Open Scope string_scope.
Open Scope Z_scope.

(** ** Go numeric conversions *)

(** [float64(i)] for a Go [int] (int64): round to nearest even.  The
    magnitude is split into two halves that convert exactly, so that the
    single rounding happens in the final addition. *)
Definition float64_of_int (z : Z) : float :=
  let n := Z.abs z in
  let hi := of_uint63 (Uint63.of_Z (n / 4294967296)) in
  let lo := of_uint63 (Uint63.of_Z (n mod 4294967296)) in
  let f := (hi * of_uint63 (Uint63.of_Z 4294967296) + lo)%float in
  if z <? 0 then (- f)%float else f.

Definition int64_min : Z := - 2 ^ 63.
Definition int64_max : Z := 2 ^ 63 - 1.

(** [int(f)] for a float64 [f]: truncation toward zero.  NaN, infinities
    and out-of-range values give the amd64 result (the minimum int64). *)
Definition go_int_of_float (f : float) : Z :=
  match Prim2SF f with
  | SpecFloat.S754_zero _ => 0
  | SpecFloat.S754_finite s m e =>
      let n := if 0 <=? e then Z.shiftl (Zpos m) e else Z.shiftr (Zpos m) (- e) in
      let v := if s then - n else n in
      if (v <? int64_min) || (int64_max <? v) then int64_min else v
  | _ => int64_min
  end.

(** ** Time *)

(** A [time.Time] as nanoseconds; [0] is the zero value. *)
Definition time := Z.
Definition zero_time : time := 0.
Definition IsZero (t : time) : bool := t =? 0.

(** [time.Duration] values, in nanoseconds. *)
Definition Second : Z := 1000000000.
Definition Minute : Z := 60 * Second.

(** [t.Sub(u)]: saturates to the int64 range. *)
Definition Sub (t u : time) : Z := Z.max int64_min (Z.min int64_max (t - u)).

(** [time.Since(t)] at the instant [now]. *)
Definition Since (now t : time) : Z := Sub now t.

(** ** The health record (healthData) *)

Record healthData := mkHealthData {
  Time : time;
  HeartRate : Z;
  StepCount : Z;
  DistanceTraveled : float;
  Speed : float;
  Calories : Z
}.

Definition zero_healthData : healthData :=
  mkHealthData zero_time 0 0 0%float 0%float 0.

Definition set_Time (d : healthData) (t : time) : healthData :=
  mkHealthData t d.(HeartRate) d.(StepCount) d.(DistanceTraveled) d.(Speed) d.(Calories).

(** [slog] output that matters here: the warning for an unknown key. *)
Inductive logEntry :=
| WarnUnknownKey (key : string).

(** [func (d *healthData) Update(key string, value float64)]: the new
    record and the warning logged, if any.  [now] is [time.Now()]. *)
Definition Update (d : healthData) (now : time) (key : string) (value : float)
  : healthData * option logEntry :=
  let d := set_Time d now in
  if String.eqb key "heartRate" then
    (mkHealthData d.(Time) (go_int_of_float value) d.(StepCount)
       d.(DistanceTraveled) d.(Speed) d.(Calories), None)
  else if String.eqb key "stepCount" then
    (mkHealthData d.(Time) d.(HeartRate) (go_int_of_float value)
       d.(DistanceTraveled) d.(Speed) d.(Calories), None)
  else if String.eqb key "distanceTraveled" then
    (mkHealthData d.(Time) d.(HeartRate) d.(StepCount)
       value d.(Speed) d.(Calories), None)
  else if String.eqb key "speed" then
    (mkHealthData d.(Time) d.(HeartRate) d.(StepCount)
       d.(DistanceTraveled) value d.(Calories), None)
  else if String.eqb key "calories" then
    (mkHealthData d.(Time) d.(HeartRate) d.(StepCount)
       d.(DistanceTraveled) d.(Speed) (go_int_of_float value), None)
  else (d, Some (WarnUnknownKey key)).

Definition recognized_key (key : string) : bool :=
  String.eqb key "heartRate" || String.eqb key "stepCount"
  || String.eqb key "distanceTraveled" || String.eqb key "speed"
  || String.eqb key "calories".

(** ** strings.Split(s, ":") *)

Fixpoint split_colon (s : string) : list string :=
  match s with
  | EmptyString => [EmptyString]
  | String c rest =>
      let parts := split_colon rest in
      if Ascii.eqb c ":"%char then EmptyString :: parts
      else match parts with
           | p :: ps => String c p :: ps
           | [] => [String c EmptyString]
           end
  end.

Fixpoint count_colon (s : string) : nat :=
  match s with
  | EmptyString => O
  | String c rest => (if Ascii.eqb c ":"%char then 1 else 0) + count_colon rest
  end%nat.

(** ** HTTP responses *)

Inductive body :=
| NoBody
| TextBody (s : string)
| JSONBody (d : healthData)
| Exposition (samples : list (string * float)).

Record response := mkResponse { status : Z; resp_body : body }.

Definition StatusOK : Z := 200.
Definition StatusBadRequest : Z := 400.
Definition StatusNotFound : Z := 404.

(** ** Exporters *)

Record wsUpdateMessage := mkMsg { msg_Data : healthData; UpdatedKey : string }.

(** A client registered by [connectWS]: its unbuffered channel [ch] and the
    goroutine receiving from it.  [waiting] holds when that goroutine is
    blocked in [case msg := <-ch]; [received] lists what it took from [ch]. *)
Record wsClient := mkClient {
  ch : nat;
  waiting : bool;
  received : list wsUpdateMessage
}.

Record httpServerExporter := mkHTTPServer {
  clients : list wsClient;
  h_data : healthData
}.

Definition newHTTPServerExporter : httpServerExporter :=
  mkHTTPServer [] zero_healthData.

(** [select { case ch <- &msg: default: }] on an unbuffered channel: the
    send happens only if the receiver is blocked on [ch]. *)
Definition trySend (c : wsClient) (m : wsUpdateMessage) : wsClient :=
  if c.(waiting) then mkClient c.(ch) false (c.(received) ++ [m]) else c.

Definition httpServer_Update (h : httpServerExporter) (d : healthData) (updatedKey : string)
  : httpServerExporter * option string :=
  let msg := mkMsg d updatedKey in
  (mkHTTPServer (map (fun c => trySend c msg) h.(clients)) h.(h_data), None).

Definition getLatest (h : httpServerExporter) : response :=
  if IsZero h.(h_data).(Time) then mkResponse StatusNotFound NoBody
  else mkResponse StatusOK (JSONBody h.(h_data)).

(** [connectWS] up to its real-time loop: the client is appended to
    [h.clients], the frames written before the loop are returned, and the
    client then waits on its channel. *)
Definition connectWS (h : httpServerExporter) (id : nat)
  : httpServerExporter * list wsUpdateMessage :=
  let h' := mkHTTPServer (h.(clients) ++ [mkClient id true []]) h.(h_data) in
  let data := h.(h_data) in
  let first := if negb (IsZero data.(Time)) then [mkMsg data "all"] else [] in
  (h', first).

(** The OSC exporter.  [client.Send] of go-osc resolves the UDP address,
    dials it and writes the packet, and returns the first error of these
    steps; the network is given by [net]: [net n] is the outcome of the
    [n]-th call ([None] when the datagram is written, [Some err] for the
    error returned).  [attempts] counts the calls made so far and [outbox]
    lists the messages written, as (address, float argument). *)
Record oscExporter := mkOSC {
  heartRateMax : float;
  addrName : string;
  outbox : list (string * float);
  net : nat -> option string;
  attempts : nat
}.

Definition newOSCExporter (net : nat -> option string) (addr : string) : oscExporter :=
  mkOSC 256%float addr [] net 0.

(** [o.client.Send(msg)] for a message with one float argument. *)
Definition client_Send (o : oscExporter) (msg : string * float) : oscExporter * option string :=
  match o.(net) o.(attempts) with
  | None => (mkOSC o.(heartRateMax) o.(addrName) (o.(outbox) ++ [msg]) o.(net) (S o.(attempts)), None)
  | Some err => (mkOSC o.(heartRateMax) o.(addrName) o.(outbox) o.(net) (S o.(attempts)), Some err)
  end.

Definition osc_Update (o : oscExporter) (d : healthData) (updatedKey : string)
  : oscExporter * option string :=
  if negb (String.eqb updatedKey "heartRate") && negb (String.eqb updatedKey "all")
  then (o, None)
  else
    let floatRate := (float64_of_int d.(HeartRate) / o.(heartRateMax))%float in
    client_Send o (o.(addrName), floatRate).

Record prometheusExporter := mkProm { p_data : healthData }.

Definition newPrometheusExporter : prometheusExporter := mkProm zero_healthData.

Definition prometheus_Update (p : prometheusExporter) (d : healthData) (_ : string)
  : prometheusExporter * option string :=
  (mkProm d, None).

(** The registry's metric functions, evaluated at scrape time. *)
Definition registry_samples (p : prometheusExporter) : list (string * float) :=
  let d := p.(p_data) in
  [("heart_rate", float64_of_int d.(HeartRate));
   ("step_count", float64_of_int d.(StepCount));
   ("distance_traveled", d.(DistanceTraveled));
   ("speed", d.(Speed));
   ("calories", float64_of_int d.(Calories))].

Definition freshness_window : Z := 30 * Second.

(** [ServeHTTP] at the instant [now]. *)
Definition ServeHTTP (p : prometheusExporter) (now : time) : response :=
  let lastReceived := p.(p_data).(Time) in
  if IsZero lastReceived || (Since now lastReceived >? freshness_window)
  then mkResponse StatusOK NoBody
  else mkResponse StatusOK (Exposition (registry_samples p)).

(** The [exporter] interface, with its three implementations. *)
Inductive exporter :=
| HTTPServer (h : httpServerExporter)
| OSC (o : oscExporter)
| Prometheus (p : prometheusExporter).

(** Which implementation an exporter is. *)
Inductive exporterKind := KHTTPServer | KOSC | KPrometheus.

Definition exporter_kind (e : exporter) : exporterKind :=
  match e with
  | HTTPServer _ => KHTTPServer
  | OSC _ => KOSC
  | Prometheus _ => KPrometheus
  end.

Definition exporter_Update (e : exporter) (d : healthData) (updatedKey : string)
  : exporter * option string :=
  match e with
  | HTTPServer h => let (h', err) := httpServer_Update h d updatedKey in (HTTPServer h', err)
  | OSC o => let (o', err) := osc_Update o d updatedKey in (OSC o', err)
  | Prometheus p => let (p', err) := prometheus_Update p d updatedKey in (Prometheus p', err)
  end.

(** [for _, s := range exporters { if err = s.Update(d, key); err != nil { log } }]:
    the updated exporters and the calls made, in order. *)
Fixpoint notify (es : list exporter) (d : healthData) (key : string)
  : list exporter * list (exporter * healthData * string) :=
  match es with
  | [] => ([], [])
  | e :: rest =>
      let (e', _) := exporter_Update e d key in
      let (rest', calls) := notify rest d key in
      (e' :: rest', (e, d, key) :: calls)
  end.

(** ** Push receiver (hdsReceiver) *)

Record hdsRequest := mkHdsRequest { Data : string }.

Record hdsReceiver := mkHdsReceiver {
  exporters : list exporter;
  data : healthData
}.

Definition newHDSReceiver (es : list exporter) : hdsReceiver :=
  mkHdsReceiver es zero_healthData.

Section PushReceiver.

(** [strconv.ParseFloat(s, 64)]: [None] when it returns an error. *)
Variable ParseFloat : string -> option float.

(** [dataHandler] at the instant [now]; [None] as the body stands for a
    request whose JSON decoding fails.  Result: the response, the new
    receiver state and the exporter calls made, in order. *)
Definition dataHandler (h : hdsReceiver) (now : time) (req : option hdsRequest)
  : response * hdsReceiver * list (exporter * healthData * string) :=
  match req with
  | None => (mkResponse StatusBadRequest (TextBody "error decoding request"), h, [])
  | Some r =>
      match split_colon r.(Data) with
      | [key; valueStr] =>
          match ParseFloat valueStr with
          | None => (mkResponse StatusBadRequest (TextBody "Invalid value format"), h, [])
          | Some value =>
              let (d', _) := Update h.(data) now key value in
              let (es', calls) := notify h.(exporters) d' key in
              (mkResponse StatusOK NoBody, mkHdsReceiver es' d', calls)
          end
      | _ => (mkResponse StatusBadRequest (TextBody "Invalid data format"), h, [])
      end
  end.

End PushReceiver.

(** ** Pull receiver (wsPullReceiver): the reconnect loop of [Start] *)

Definition wsPullFirstWait : Z := Second.
Definition wsPullMaxBackoff : Z := 10 * Minute.

(** int64 arithmetic wraps around. *)
Definition wrap64 (z : Z) : Z := ((z + 2 ^ 63) mod 2 ^ 64) - 2 ^ 63.

Record wsPullReceiver := mkPull { nextBackoff : Z }.

Definition newWSPullReceiver : wsPullReceiver := mkPull wsPullFirstWait.

(** One iteration of [Start] after [err := h.connect()] returned ([None]
    for [err == nil]): the duration passed to [time.Sleep], and the state
    for the next iteration. *)
Definition reconnect_step (h : wsPullReceiver) (err : option string) : Z * wsPullReceiver :=
  match err with
  | None =>
      let h := mkPull wsPullFirstWait in
      (h.(nextBackoff), h)
  | Some _ =>
      let wait := h.(nextBackoff) in
      (wait, mkPull (Z.min (wrap64 (h.(nextBackoff) * 2)) wsPullMaxBackoff))
  end.

(** The loop driven by the results of successive [connect] calls: the
    sleeps, in order, and the final state. *)
Fixpoint run_Start (h : wsPullReceiver) (results : list (option string))
  : list Z * wsPullReceiver :=
  match results with
  | [] => ([], h)
  | err :: rest =>
      let (wait, h') := reconnect_step h err in
      let (waits, hf) := run_Start h' rest in
      (wait :: waits, hf)
  end.

Example run_Start_example :
  fst (run_Start newWSPullReceiver [Some "dial"; Some "read"; None; Some "x"])
  = [Second; 2 * Second; Second; Second].
Proof. reflexivity. Qed.

(** ** The HTTP/WebSocket exporter over time *)

(** What reaches an [httpServerExporter]: [Update] calls from the receiver
    and WebSocket connections (up to their real-time loop). *)
Inductive httpEvent :=
| EvUpdate (d : healthData) (updatedKey : string)
| EvConnect (id : nat).

Definition httpServer_step (h : httpServerExporter) (ev : httpEvent) : httpServerExporter :=
  match ev with
  | EvUpdate d k => fst (httpServer_Update h d k)
  | EvConnect id => fst (connectWS h id)
  end.

Definition httpServer_run (h : httpServerExporter) (evs : list httpEvent) : httpServerExporter :=
  fold_left httpServer_step evs h.

(** [lo.Without(h.clients, ch)] in the deferred cleanup of [connectWS]:
    every client on channel [id] is removed, the others keep their order. *)
Definition Without (cs : list wsClient) (id : nat) : list wsClient :=
  filter (fun c => negb (Nat.eqb c.(ch) id)) cs.

Definition disconnectWS (h : httpServerExporter) (id : nat) : httpServerExporter :=
  mkHTTPServer (Without h.(clients) id) h.(h_data).

(** The real-time loop of [connectWS] after [conn.WriteJSON(msg)] returns:
    the goroutine is back in its [select], waiting on [ch]. *)
Definition writeDone (h : httpServerExporter) (id : nat) : httpServerExporter :=
  mkHTTPServer
    (map (fun c => if Nat.eqb c.(ch) id then mkClient c.(ch) true c.(received) else c)
       h.(clients))
    h.(h_data).

(** [Update] called on the exporter for each (record, key), in order. *)
Definition httpServer_updates (h : httpServerExporter) (us : list (healthData * string))
  : httpServerExporter :=
  fold_left (fun h '(d, k) => fst (httpServer_Update h d k)) us h.

(** ** The push receiver over a sequence of requests *)

Section PushSequence.

Variable ParseFloat : string -> option float.

(** The parsing part of [dataHandler]: the key and value of a well-formed
    request. *)
Definition parse_push (req : option hdsRequest) : option (string * float) :=
  match req with
  | None => None
  | Some r =>
      match split_colon r.(Data) with
      | [key; valueStr] =>
          match ParseFloat valueStr with
          | Some value => Some (key, value)
          | None => None
          end
      | _ => None
      end
  end.

(** [dataHandler] on each (instant, request), in order. *)
Definition run_handler (h : hdsReceiver) (reqs : list (time * option hdsRequest)) : hdsReceiver :=
  fold_left (fun h '(now, req) => snd (fst (dataHandler ParseFloat h now req))) reqs h.

(** The value of the last well-formed request for [key], [acc] if none. *)
Fixpoint last_value_from (key : string) (acc : option float)
    (reqs : list (time * option hdsRequest)) : option float :=
  match reqs with
  | [] => acc
  | (_, req) :: rest =>
      let acc := match parse_push req with
                 | Some (k, v) => if String.eqb k key then Some v else acc
                 | None => acc
                 end in
      last_value_from key acc rest
  end.

Definition last_value (key : string) (reqs : list (time * option hdsRequest)) : option float :=
  last_value_from key None reqs.

(** The instant of the last well-formed request, [acc] if none. *)
Fixpoint last_time_from (acc : option time) (reqs : list (time * option hdsRequest))
  : option time :=
  match reqs with
  | [] => acc
  | (now, req) :: rest =>
      let acc := match parse_push req with
                 | Some _ => Some now
                 | None => acc
                 end in
      last_time_from acc rest
  end.

Definition last_time (reqs : list (time * option hdsRequest)) : option time :=
  last_time_from None reqs.

End PushSequence.

(** Every Prometheus exporter of the receiver holds the receiver's record. *)
Definition prom_synced (h : hdsReceiver) : Prop :=
  Forall (fun e => match e with
                   | Prometheus p => p.(p_data) = h.(data)
                   | _ => True
                   end) h.(exporters).

(** ** The pull receiver's sessions ([wsPullReceiver.connect]) *)

(** What [c.ReadMessage()] returns. *)
Inductive readEvent :=
| ReadMsg (raw : string)
| ReadEOF
| ReadError (err : string).

(** The outcome of [websocket.DefaultDialer.Dial]; a connection is the
    sequence of its reads.  A read sequence that ends without [ReadEOF] or
    [ReadError] is a connection still open. *)
Inductive dialResult :=
| DialError (err : string)
| Dialed (reads : list readEvent).

Section PullSession.

(** [json.NewDecoder(bytes.NewReader(rawMsg)).Decode(&msg)]. *)
Variable DecodeMsg : string -> option wsUpdateMessage.

(** The read loop of [connect]: the exporters after the calls, the calls
    made, and the result: [None] while the connection is still open,
    [Some None] for [return nil], [Some (Some err)] for an error. *)
Fixpoint connect_loop (es : list exporter) (reads : list readEvent)
  : list exporter * list (exporter * healthData * string) * option (option string) :=
  match reads with
  | [] => (es, [], None)
  | ReadEOF :: _ => (es, [], Some None)
  | ReadError e :: _ => (es, [], Some (Some (String.append "reading websocket: " e)))
  | ReadMsg raw :: rest =>
      match DecodeMsg raw with
      | None => (es, [], Some (Some "decoding websocket message"))
      | Some msg =>
          let (es', calls) := notify es msg.(msg_Data) msg.(UpdatedKey) in
          let '(es'', calls', res) := connect_loop es' rest in
          (es'', (calls ++ calls')%list, res)
      end
  end.

Definition connect (es : list exporter) (dial : dialResult)
  : list exporter * list (exporter * healthData * string) * option (option string) :=
  match dial with
  | DialError e => (es, [], Some (Some (String.append "dialing websocket server: " e)))
  | Dialed reads => connect_loop es reads
  end.

(** [Start]: one session per dial, each followed by its sleep; the loop
    stops being driven at a session that stays open.  Result: the sleeps,
    the final backoff state and the exporters. *)
Fixpoint pull_Start (h : wsPullReceiver) (es : list exporter) (dials : list dialResult)
  : list Z * wsPullReceiver * list exporter :=
  match dials with
  | [] => ([], h, es)
  | dial :: rest =>
      let '(es', _, res) := connect es dial in
      match res with
      | None => ([], h, es')
      | Some err =>
          let (wait, h') := reconnect_step h err in
          let '(waits, hf, esf) := pull_Start h' es' rest in
          (wait :: waits, hf, esf)
      end
  end.

End PullSession.

(** What a session that decodes [msgs] should do to the exporters: for
    each message in turn, call every registered exporter once, in
    registration order, with the message's record and key (the exporters
    being in the state the previous messages left them in). *)
Fixpoint session_calls (es : list exporter) (msgs : list wsUpdateMessage)
  : list (exporter * healthData * string) :=
  match msgs with
  | [] => []
  | m :: ms =>
      (map (fun e => (e, m.(msg_Data), m.(UpdatedKey))) es ++
       session_calls (fst (notify es m.(msg_Data) m.(UpdatedKey))) ms)%list
  end.

(** ** Build information (GetFormattedVersion) *)

Record buildSetting := mkSetting { Key : string; Value : string }.

Record versionInfo := mkVersionInfo {
  version : string;
  revision : string;
  buildDirty : bool;
  buildTime : string
}.

(** One iteration of the loop of [init]; [None] when [setting.Value[:7]]
    panics (a value shorter than 7 bytes). *)
Definition init_setting (v : versionInfo) (s : buildSetting) : option versionInfo :=
  let ov :=
    if String.eqb s.(Key) "vcs.revision" then
      if (String.length s.(Value) <? 7)%nat then None
      else Some (mkVersionInfo v.(version) (substring 0 7 s.(Value)) v.(buildDirty) v.(buildTime))
    else Some v in
  match ov with
  | None => None
  | Some v =>
      let v := if String.eqb s.(Key) "vcs.modified"
               then mkVersionInfo v.(version) v.(revision) (String.eqb s.(Value) "true") v.(buildTime)
               else v in
      let v := if String.eqb s.(Key) "vcs.time"
               then mkVersionInfo v.(version) v.(revision) v.(buildDirty) s.(Value)
               else v in
      Some v
  end.

Fixpoint init_settings (v : versionInfo) (ss : list buildSetting) : option versionInfo :=
  match ss with
  | [] => Some v
  | s :: rest =>
      match init_setting v s with
      | None => None
      | Some v' => init_settings v' rest
      end
  end.

(** [init]: [info] is what [debug.ReadBuildInfo()] returns when [ok]
    (the main module's version and the settings). *)
Definition init (v : versionInfo) (info : option (string * list buildSetting)) : option versionInfo :=
  match info with
  | None => Some v
  | Some (mainVersion, settings) =>
      let v := if String.eqb v.(version) ""
               then mkVersionInfo mainVersion v.(revision) v.(buildDirty) v.(buildTime)
               else v in
      init_settings v settings
  end.

(** The value of the last setting with key [key], [acc] if none. *)
Fixpoint last_setting_from (key : string) (acc : option string) (ss : list buildSetting)
  : option string :=
  match ss with
  | [] => acc
  | s :: rest =>
      last_setting_from key (if String.eqb s.(Key) key then Some s.(Value) else acc) rest
  end.

Definition GetFormattedVersion (v : versionInfo) : string :=
  let revisionMeta :=
    String.append v.(revision)
      (String.append (if v.(buildDirty) then "+dirty" else "")
         (if negb (String.eqb v.(buildTime) "") then String.append ", " v.(buildTime) else "")) in
  if String.eqb revisionMeta "" then v.(version)
  else String.append v.(version) (String.append " (" (String.append revisionMeta ")")).

(** ** The heart-rate-only predecessor ([receive.go], [export.go]) *)

Module Legacy.

(** [strconv.Atoi]: an optional sign and one or more decimal digits, with
    a value in the int64 range; anything else is an error. *)
Fixpoint digits_val (s : string) (acc : Z) : option Z :=
  match s with
  | EmptyString => Some acc
  | String c rest =>
      let n := Z.of_nat (nat_of_ascii c) in
      if (48 <=? n) && (n <=? 57) then digits_val rest (acc * 10 + (n - 48)) else None
  end.

Definition Atoi (s : string) : option Z :=
  let '(neg, digits) :=
    match s with
    | String c rest =>
        if Ascii.eqb c "-"%char then (true, rest)
        else if Ascii.eqb c "+"%char then (false, rest)
        else (false, s)
    | EmptyString => (false, s)
    end in
  match digits with
  | EmptyString => None
  | _ =>
      match digits_val digits 0 with
      | None => None
      | Some n =>
          let v := if neg then - n else n in
          if (int64_min <=? v) && (v <=? int64_max) then Some v else None
      end
  end.

(** The decimal notation of an integer: an optional [-] followed by the
    digits without leading zeros (the form [strconv.Itoa] writes);
    [itoa_nat] writes a non-negative value below [10 ^ fuel]. *)
Definition digit_char (d : Z) : ascii := ascii_of_nat (Z.to_nat (48 + d)).

Fixpoint itoa_nat (fuel : nat) (n : Z) : string :=
  match fuel with
  | O => EmptyString
  | S fuel' =>
      if n <? 10 then String (digit_char n) EmptyString
      else String.append (itoa_nat fuel' (n / 10)) (String (digit_char (n mod 10)) EmptyString)
  end.

Definition Itoa (n : Z) : string :=
  if n <? 0 then String "-"%char (itoa_nat 20 (- n)) else itoa_nat 20 n.

Definition hdsDataPrefix : string := "heartRate:".

(** [strings.TrimPrefix(s, hdsDataPrefix)] once [strings.HasPrefix] holds. *)
Definition TrimPrefix (s : string) : string :=
  substring (String.length hdsDataPrefix) (String.length s - String.length hdsDataPrefix) s.

(** [httpSenderMessage]; its [Time] field is [receivedTime] formatted as
    RFC 3339, kept here as the instant. *)
Record httpSenderMessage := mkSenderMsg { m_HeartRate : Z; m_Time : time }.

Record client := mkLClient {
  l_ch : nat;
  l_waiting : bool;
  l_received : list httpSenderMessage
}.

Record httpServerExporter := mkLHTTP {
  l_clients : list client;
  heartRate : Z;
  receivedTime : time
}.

Definition newHTTPServerExporter : httpServerExporter := mkLHTTP [] 0 zero_time.

Definition trySend (c : client) (m : httpSenderMessage) : client :=
  if c.(l_waiting) then mkLClient c.(l_ch) false (c.(l_received) ++ [m]) else c.

(** [func (h *httpServerExporter) Send(rate int) error] at [now]. *)
Definition httpServer_Send (h : httpServerExporter) (rate : Z) (now : time)
  : httpServerExporter * option string :=
  let msg := mkSenderMsg rate now in
  (mkLHTTP (map (fun c => trySend c msg) h.(l_clients)) rate now, None).

Inductive lbody :=
| LNoBody
| LLatest (hr : Z) (t : time)
| LExposition (samples : list (string * float))
| LText (s : string).

Record lresponse := mkLResponse { l_status : Z; l_body : lbody }.

Definition getLatest (h : httpServerExporter) : lresponse :=
  if IsZero h.(receivedTime) then mkLResponse StatusNotFound LNoBody
  else mkLResponse StatusOK (LLatest h.(heartRate) h.(receivedTime)).

Definition connectWS (h : httpServerExporter) (id : nat)
  : httpServerExporter * list httpSenderMessage :=
  let h' := mkLHTTP (h.(l_clients) ++ [mkLClient id true []]) h.(heartRate) h.(receivedTime) in
  let first := if negb (IsZero h.(receivedTime))
               then [mkSenderMsg h.(heartRate) h.(receivedTime)] else [] in
  (h', first).

(** float32 values and arithmetic (24-bit significand, exponents up to 128). *)
Definition float32 := SpecFloat.spec_float.
Definition float32_of_int (z : Z) : float32 := SpecFloat.binary_normalize 24 128 z 0 false.
Definition div32 (x y : float32) : float32 := SpecFloat.SFdiv 24 128 x y.

Record oscExporter := mkLOSC {
  heartRateMax : float32;
  addrName : string;
  outbox : list (string * float32);
  net : nat -> option string;
  attempts : nat
}.

Definition newOSCExporter (net : nat -> option string) (addr : string) : oscExporter :=
  mkLOSC (float32_of_int 256) addr [] net 0.

(** [o.client.Send(msg)], with the network given as for the current exporter. *)
Definition client_Send (o : oscExporter) (msg : string * float32) : oscExporter * option string :=
  match o.(net) o.(attempts) with
  | None => (mkLOSC o.(heartRateMax) o.(addrName) (o.(outbox) ++ [msg]) o.(net) (S o.(attempts)), None)
  | Some err => (mkLOSC o.(heartRateMax) o.(addrName) o.(outbox) o.(net) (S o.(attempts)), Some err)
  end.

Definition osc_Send (o : oscExporter) (rate : Z) (_ : time) : oscExporter * option string :=
  let floatRate := div32 (float32_of_int rate) o.(heartRateMax) in
  client_Send o (o.(addrName), floatRate).

Record prometheusExporter := mkLProm { rateGauge : float; lastReceived : time }.

Definition newPrometheusExporter : prometheusExporter := mkLProm 0%float zero_time.

Definition prometheus_Send (p : prometheusExporter) (rate : Z) (now : time)
  : prometheusExporter * option string :=
  (mkLProm (float64_of_int rate) now, None).

Definition ServeHTTP (p : prometheusExporter) (now : time) : lresponse :=
  let lastReceived := p.(lastReceived) in
  if IsZero lastReceived || (Since now lastReceived >? freshness_window)
  then mkLResponse StatusOK LNoBody
  else mkLResponse StatusOK (LExposition [("heart_rate", p.(rateGauge))]).

Inductive exporter :=
| HTTPServer (h : httpServerExporter)
| OSC (o : oscExporter)
| Prometheus (p : prometheusExporter).

Definition exporter_Send (e : exporter) (rate : Z) (now : time) : exporter * option string :=
  match e with
  | HTTPServer h => let (h', err) := httpServer_Send h rate now in (HTTPServer h', err)
  | OSC o => let (o', err) := osc_Send o rate now in (OSC o', err)
  | Prometheus p => let (p', err) := prometheus_Send p rate now in (Prometheus p', err)
  end.

Fixpoint notify (es : list exporter) (rate : Z) (now : time)
  : list exporter * list (exporter * Z) :=
  match es with
  | [] => ([], [])
  | e :: rest =>
      let (e', _) := exporter_Send e rate now in
      let (rest', calls) := notify rest rate now in
      (e' :: rest', (e, rate) :: calls)
  end.

(** [hdsReceiver.dataHandler] of [receive.go] at [now]; [None] as the body
    stands for a request whose JSON decoding fails.  Result: the response,
    the exporters after the calls, and the calls made. *)
Definition dataHandler (es : list exporter) (now : time) (req : option hdsRequest)
  : lresponse * list exporter * list (exporter * Z) :=
  match req with
  | None => (mkLResponse StatusBadRequest (LText "error decoding request"), es, [])
  | Some r =>
      if negb (String.prefix hdsDataPrefix r.(Data)) then
        (mkLResponse StatusBadRequest (LText "Invalid data format"), es, [])
      else
        match Atoi (TrimPrefix r.(Data)) with
        | None => (mkLResponse StatusBadRequest (LText "Invalid data format"), es, [])
        | Some rate =>
            let (es', calls) := notify es rate now in
            (mkLResponse StatusOK LNoBody, es', calls)
        end
  end.

End Legacy.

(** ** Concrete instances used to exercise the model *)

(** A stand-in for [strconv.ParseFloat] that knows a few inputs. *)
Definition sampleParseFloat (s : string) : option float :=
  if String.eqb s "80" then Some 80%float
  else if String.eqb s "12.5" then Some 12.5%float
  else None.

(** Networks for the OSC client: one where every datagram is written, and
    one where the destination cannot be resolved. *)
Definition udp_ok : nat -> option string := fun _ => None.

Definition udp_down : nat -> option string :=
  fun _ => Some "dial udp: lookup vrchat.invalid: no such host".

Definition sample_record : healthData :=
  mkHealthData 1000 80 12 3.5%float 0.25%float 7.

Example go_int_of_float_80 : go_int_of_float 80.75%float = 80.
Proof. vm_compute. reflexivity. Qed.

Example go_int_of_float_neg : go_int_of_float (-2.5)%float = -2.
Proof. vm_compute. reflexivity. Qed.

Example float64_of_int_80 : (float64_of_int 80 / 256)%float = 0.3125%float.
Proof. vm_compute. reflexivity. Qed.

Example split_colon_examples :
  split_colon "heartRate:80" = ["heartRate"; "80"] /\
  split_colon "a:b:c" = ["a"; "b"; "c"] /\
  split_colon "" = [""] /\ split_colon ":" = [""; ""].
Proof. repeat split; reflexivity. Qed.

Example dataHandler_example :
  let '(resp, h', calls) :=
    dataHandler sampleParseFloat (newHDSReceiver [Prometheus newPrometheusExporter]) 5
      (Some (mkHdsRequest "heartRate:80")) in
  resp.(status) = StatusOK /\ h'.(data).(HeartRate) = 80 /\ h'.(data).(Time) = 5
  /\ List.length calls = 1%nat.
Proof. vm_compute. repeat split; reflexivity. Qed.

(** ** Lemmas on the embedding *)

Lemma split_colon_no_colon (s : string) :
  count_colon s = 0%nat -> split_colon s = [s].
Proof.
  induction s as [|c s IH]; simpl; [reflexivity|].
  destruct (Ascii.eqb c ":"%char); simpl; [discriminate|].
  intros H. rewrite (IH H). reflexivity.
Qed.

Lemma split_colon_app (a b : string) :
  count_colon a = 0%nat ->
  split_colon (String.append a (String ":"%char b)) = a :: split_colon b.
Proof.
  induction a as [|c a IH]; simpl; [reflexivity|].
  destruct (Ascii.eqb c ":"%char); simpl; [discriminate|].
  intros H. rewrite (IH H). reflexivity.
Qed.

Lemma split_colon_length (s : string) :
  List.length (split_colon s) = S (count_colon s).
Proof.
  induction s as [|c s IH]; simpl; [reflexivity|].
  destruct (Ascii.eqb c ":"%char); simpl.
  - rewrite IH. reflexivity.
  - destruct (split_colon s) as [|p ps]; simpl in *; [discriminate|].
    rewrite IH. reflexivity.
Qed.

Lemma recognized_key_cases (key : string) :
  recognized_key key = true ->
  key = "heartRate" \/ key = "stepCount" \/ key = "distanceTraveled"
  \/ key = "speed" \/ key = "calories".
Proof.
  unfold recognized_key. intros H.
  repeat rewrite orb_true_iff in H.
  repeat rewrite String.eqb_eq in H. tauto.
Qed.

Lemma recognized_key_no_colon (key : string) :
  recognized_key key = true -> count_colon key = 0%nat.
Proof.
  intros H. apply recognized_key_cases in H.
  repeat destruct H as [H|H]; subst; reflexivity.
Qed.

Lemma notify_calls (es : list exporter) (d : healthData) (key : string) :
  snd (notify es d key) = map (fun e => (e, d, key)) es.
Proof.
  induction es as [|e es IH]; simpl; [reflexivity|].
  destruct (exporter_Update e d key) as [e' err].
  destruct (notify es d key) as [es' calls]. simpl in *. rewrite IH. reflexivity.
Qed.

Lemma Update_unknown (d : healthData) (now : time) (key : string) (value : float) :
  recognized_key key = false ->
  Update d now key value = (set_Time d now, Some (WarnUnknownKey key)).
Proof.
  unfold recognized_key, Update. intros H.
  repeat rewrite orb_false_iff in H.
  destruct H as [[[[H1 H2] H3] H4] H5].
  rewrite H1, H2, H3, H4, H5. reflexivity.
Qed.

(** ** Push receiver *)

(** C1: a well-formed payload [key:value] with a recognised key and a value
    that [ParseFloat] accepts is answered with 200; the record's time is
    [now], the field named by [key] holds the converted value and the other
    fields are unchanged. *)
Theorem dataHandler_recognized_key_sets_field
    (ParseFloat : string -> option float) (h : hdsReceiver) (now : time)
    (key valueStr : string) (value : float) :
  recognized_key key = true ->
  count_colon valueStr = 0%nat ->
  ParseFloat valueStr = Some value ->
  let d := h.(data) in
  let '(resp, h', _) :=
    dataHandler ParseFloat h now
      (Some (mkHdsRequest (String.append key (String ":"%char valueStr)))) in
  resp.(status) = StatusOK /\
  (key = "heartRate" -> h'.(data) =
     mkHealthData now (go_int_of_float value) d.(StepCount) d.(DistanceTraveled) d.(Speed) d.(Calories)) /\
  (key = "stepCount" -> h'.(data) =
     mkHealthData now d.(HeartRate) (go_int_of_float value) d.(DistanceTraveled) d.(Speed) d.(Calories)) /\
  (key = "distanceTraveled" -> h'.(data) =
     mkHealthData now d.(HeartRate) d.(StepCount) value d.(Speed) d.(Calories)) /\
  (key = "speed" -> h'.(data) =
     mkHealthData now d.(HeartRate) d.(StepCount) d.(DistanceTraveled) value d.(Calories)) /\
  (key = "calories" -> h'.(data) =
     mkHealthData now d.(HeartRate) d.(StepCount) d.(DistanceTraveled) d.(Speed) (go_int_of_float value)).
Proof.
  intros Hkey Hv Hparse. cbv zeta. unfold dataHandler. simpl.
  rewrite (split_colon_app _ _ (recognized_key_no_colon _ Hkey)).
  rewrite (split_colon_no_colon _ Hv), Hparse.
  apply recognized_key_cases in Hkey.
  repeat destruct Hkey as [Hkey|Hkey]; subst key; simpl;
    match goal with |- context [notify ?es ?d ?k] => destruct (notify es d k) end;
    simpl; repeat split; intros E; try discriminate E; reflexivity.
Qed.

Lemma dataHandler_recognized_key_sets_field_witness :
  recognized_key "heartRate" = true /\ count_colon "80" = 0%nat /\
  sampleParseFloat "80" = Some 80%float /\
  let h := newHDSReceiver [OSC (newOSCExporter udp_ok "/avatar/parameters/HeartRate")] in
  let d := h.(data) in
  let '(resp, h', _) :=
    dataHandler sampleParseFloat h 7
      (Some (mkHdsRequest (String.append "heartRate" (String ":"%char "80")))) in
  resp.(status) = StatusOK /\
  ("heartRate" = "heartRate" -> h'.(data) =
     mkHealthData 7 (go_int_of_float 80%float) d.(StepCount) d.(DistanceTraveled) d.(Speed) d.(Calories)) /\
  ("heartRate" = "stepCount" -> h'.(data) =
     mkHealthData 7 d.(HeartRate) (go_int_of_float 80%float) d.(DistanceTraveled) d.(Speed) d.(Calories)) /\
  ("heartRate" = "distanceTraveled" -> h'.(data) =
     mkHealthData 7 d.(HeartRate) d.(StepCount) 80%float d.(Speed) d.(Calories)) /\
  ("heartRate" = "speed" -> h'.(data) =
     mkHealthData 7 d.(HeartRate) d.(StepCount) d.(DistanceTraveled) 80%float d.(Calories)) /\
  ("heartRate" = "calories" -> h'.(data) =
     mkHealthData 7 d.(HeartRate) d.(StepCount) d.(DistanceTraveled) d.(Speed) (go_int_of_float 80%float)).
Proof.
  split; [reflexivity|]. split; [reflexivity|]. split; [reflexivity|].
  exact (dataHandler_recognized_key_sets_field sampleParseFloat
           (newHDSReceiver [OSC (newOSCExporter udp_ok "/avatar/parameters/HeartRate")]) 7
           "heartRate" "80" 80%float eq_refl eq_refl eq_refl).
Defined.

(** C2: a malformed payload (the number of [:] separators is not one, or
    the value part is rejected by [ParseFloat]) is answered with 400, the
    receiver's record and exporters are unchanged and no exporter is
    called. *)
Theorem dataHandler_malformed_rejected
    (ParseFloat : string -> option float) (h : hdsReceiver) (now : time) (s : string) :
  count_colon s <> 1%nat \/
  (exists key valueStr, s = String.append key (String ":"%char valueStr) /\
     count_colon key = 0%nat /\ count_colon valueStr = 0%nat /\ ParseFloat valueStr = None) ->
  let '(resp, h', calls) := dataHandler ParseFloat h now (Some (mkHdsRequest s)) in
  resp.(status) = StatusBadRequest /\ h' = h /\ calls = [].
Proof.
  intros [Hn | (key & valueStr & -> & Hk & Hv & Hp)]; unfold dataHandler; simpl.
  - pose proof (split_colon_length s) as Hl.
    destruct (split_colon s) as [|a [|b [|c l]]]; simpl in Hl;
      try (repeat split; reflexivity).
    exfalso. apply Hn. congruence.
  - rewrite (split_colon_app _ _ Hk), (split_colon_no_colon _ Hv), Hp.
    repeat split; reflexivity.
Qed.

Lemma dataHandler_malformed_rejected_witness :
  (count_colon "heartRate:abc" <> 1%nat \/
   (exists key valueStr, "heartRate:abc" = String.append key (String ":"%char valueStr) /\
      count_colon key = 0%nat /\ count_colon valueStr = 0%nat /\ sampleParseFloat valueStr = None)) /\
  let h := newHDSReceiver [Prometheus newPrometheusExporter] in
  let '(resp, h', calls) := dataHandler sampleParseFloat h 9 (Some (mkHdsRequest "heartRate:abc")) in
  resp.(status) = StatusBadRequest /\ h' = h /\ calls = [].
Proof.
  assert (Hpre : count_colon "heartRate:abc" <> 1%nat \/
   (exists key valueStr, "heartRate:abc" = String.append key (String ":"%char valueStr) /\
      count_colon key = 0%nat /\ count_colon valueStr = 0%nat /\ sampleParseFloat valueStr = None)).
  { right. exists "heartRate", "abc". repeat split; reflexivity. }
  split; [exact Hpre|].
  exact (dataHandler_malformed_rejected sampleParseFloat
           (newHDSReceiver [Prometheus newPrometheusExporter]) 9 "heartRate:abc" Hpre).
Defined.

(** C9 (counterexample): an unknown key does change the record: its time
    becomes [now]. *)
Lemma Update_unknown_key_changes_time :
  fst (Update sample_record 2000 "heartbeat" 1%float) <> sample_record.
Proof. vm_compute. intros E. discriminate E. Qed.

(** C9 (amended): for a key outside the five recognised ones, [Update]
    logs a warning and changes no field but [Time], which becomes [now]. *)
Theorem Update_unknown_key_only_time
    (d : healthData) (now : time) (key : string) (value : float) :
  recognized_key key = false ->
  Update d now key value = (set_Time d now, Some (WarnUnknownKey key)) /\
  let d' := fst (Update d now key value) in
  d'.(Time) = now /\ d'.(HeartRate) = d.(HeartRate) /\ d'.(StepCount) = d.(StepCount) /\
  d'.(DistanceTraveled) = d.(DistanceTraveled) /\ d'.(Speed) = d.(Speed) /\
  d'.(Calories) = d.(Calories).
Proof.
  intros Hk. rewrite (Update_unknown d now key value Hk).
  split; [reflexivity|]. simpl. repeat split; reflexivity.
Qed.

Lemma Update_unknown_key_only_time_witness :
  recognized_key "heartbeat" = false /\
  Update sample_record 2000 "heartbeat" 1%float
    = (set_Time sample_record 2000, Some (WarnUnknownKey "heartbeat")) /\
  let d' := fst (Update sample_record 2000 "heartbeat" 1%float) in
  d'.(Time) = 2000 /\ d'.(HeartRate) = sample_record.(HeartRate) /\
  d'.(StepCount) = sample_record.(StepCount) /\
  d'.(DistanceTraveled) = sample_record.(DistanceTraveled) /\
  d'.(Speed) = sample_record.(Speed) /\ d'.(Calories) = sample_record.(Calories).
Proof.
  split; [reflexivity|].
  exact (Update_unknown_key_only_time sample_record 2000 "heartbeat" 1%float eq_refl).
Defined.

(** C10: a well-formed payload whose key is not recognised is answered
    with 200, the record's time becomes [now] (no other field changes), and
    every exporter is called, in registration order, with the record and
    that key. *)
Theorem dataHandler_unknown_key_notifies
    (ParseFloat : string -> option float) (h : hdsReceiver) (now : time)
    (key valueStr : string) (value : float) :
  recognized_key key = false ->
  count_colon key = 0%nat ->
  count_colon valueStr = 0%nat ->
  ParseFloat valueStr = Some value ->
  let '(resp, h', calls) :=
    dataHandler ParseFloat h now
      (Some (mkHdsRequest (String.append key (String ":"%char valueStr)))) in
  resp.(status) = StatusOK /\ h'.(data) = set_Time h.(data) now /\
  calls = map (fun e => (e, h'.(data), key)) h.(exporters).
Proof.
  intros Hk Hkc Hv Hp. unfold dataHandler. simpl.
  rewrite (split_colon_app _ _ Hkc), (split_colon_no_colon _ Hv), Hp.
  rewrite (Update_unknown _ _ _ _ Hk).
  pose proof (notify_calls h.(exporters) (set_Time h.(data) now) key) as Hc.
  destruct (notify h.(exporters) (set_Time h.(data) now) key) as [es' calls].
  simpl in *. repeat split; [assumption].
Qed.

Lemma dataHandler_unknown_key_notifies_witness :
  recognized_key "heartbeat" = false /\ count_colon "heartbeat" = 0%nat /\
  count_colon "80" = 0%nat /\ sampleParseFloat "80" = Some 80%float /\
  let h := newHDSReceiver [HTTPServer newHTTPServerExporter; Prometheus newPrometheusExporter] in
  let '(resp, h', calls) :=
    dataHandler sampleParseFloat h 11
      (Some (mkHdsRequest (String.append "heartbeat" (String ":"%char "80")))) in
  resp.(status) = StatusOK /\ h'.(data) = set_Time h.(data) 11 /\
  calls = map (fun e => (e, h'.(data), "heartbeat")) h.(exporters).
Proof.
  split; [reflexivity|]. split; [reflexivity|]. split; [reflexivity|].
  split; [reflexivity|].
  exact (dataHandler_unknown_key_notifies sampleParseFloat
    (newHDSReceiver [HTTPServer newHTTPServerExporter; Prometheus newPrometheusExporter]) 11
    "heartbeat" "80" 80%float eq_refl eq_refl eq_refl eq_refl).
Defined.

(** ** Pull receiver backoff *)

Lemma wrap64_small (z : Z) : - 2 ^ 63 <= z < 2 ^ 63 -> wrap64 z = z.
Proof.
  intros Hz. unfold wrap64.
  replace (2 ^ 64) with (2 * 2 ^ 63) by reflexivity.
  rewrite Z.mod_small; lia.
Qed.

Definition backoff_in_range (h : wsPullReceiver) : Prop :=
  Second <= h.(nextBackoff) <= wsPullMaxBackoff.

Lemma reconnect_step_error (h : wsPullReceiver) (e : string) :
  backoff_in_range h ->
  reconnect_step h (Some e) =
    (h.(nextBackoff), mkPull (Z.min (2 * h.(nextBackoff)) wsPullMaxBackoff)).
Proof.
  unfold backoff_in_range, wsPullMaxBackoff, Minute, Second. intros Hr. simpl.
  rewrite wrap64_small.
  - rewrite Z.mul_comm. reflexivity.
  - assert (E : 2 ^ 63 = 9223372036854775808) by reflexivity. rewrite E. lia.
Qed.

Lemma reconnect_step_in_range (h : wsPullReceiver) (err : option string) :
  backoff_in_range h ->
  Second <= fst (reconnect_step h err) <= wsPullMaxBackoff /\
  backoff_in_range (snd (reconnect_step h err)).
Proof.
  intros Hr. destruct err as [e|].
  - rewrite (reconnect_step_error h e Hr). cbn [fst snd].
    unfold backoff_in_range in *. cbn [nextBackoff]. split; [assumption|].
    unfold wsPullMaxBackoff, Minute, Second in *. lia.
  - unfold backoff_in_range. cbn [reconnect_step fst snd nextBackoff]. unfold wsPullMaxBackoff, wsPullFirstWait, Minute, Second. lia.
Qed.

Lemma run_Start_in_range (h : wsPullReceiver) (results : list (option string)) :
  backoff_in_range h ->
  Forall (fun w => Second <= w <= wsPullMaxBackoff) (fst (run_Start h results)) /\
  backoff_in_range (snd (run_Start h results)).
Proof.
  revert h. induction results as [|err rest IH]; intros h Hr; simpl.
  - split; [constructor | assumption].
  - pose proof (reconnect_step_in_range h err Hr) as [Hw Hs].
    destruct (reconnect_step h err) as [wait h'] eqn:E. simpl in Hw, Hs.
    specialize (IH h' Hs).
    destruct (run_Start h' rest) as [waits hf]. simpl in *.
    destruct IH as [IHw IHs]. split; [constructor; assumption | assumption].
Qed.

Lemma newWSPullReceiver_in_range : backoff_in_range newWSPullReceiver.
Proof. unfold backoff_in_range, newWSPullReceiver. cbn [nextBackoff]. unfold wsPullMaxBackoff, wsPullFirstWait, Minute, Second. lia. Qed.

(** C3: the backoff starts at one second; after a failed session the loop
    sleeps the current backoff and then doubles it, capped at ten minutes;
    after a clean session it resets the backoff to one second and sleeps
    that; on every run of the loop each sleep lies between one second and
    the ten-minute maximum. *)
Theorem pull_backoff_policy :
  newWSPullReceiver.(nextBackoff) = Second /\
  (forall (results : list (option string)) (e : string),
     let h := snd (run_Start newWSPullReceiver results) in
     reconnect_step h (Some e) =
       (h.(nextBackoff), mkPull (Z.min (2 * h.(nextBackoff)) wsPullMaxBackoff))) /\
  (forall h : wsPullReceiver, reconnect_step h None = (Second, mkPull Second)) /\
  (forall results : list (option string),
     Forall (fun w => w <= wsPullMaxBackoff) (fst (run_Start newWSPullReceiver results)) /\
     (snd (run_Start newWSPullReceiver results)).(nextBackoff) <= wsPullMaxBackoff).
Proof.
  split; [reflexivity|]. split; [|split].
  - intros results e. cbv zeta. apply reconnect_step_error.
    apply run_Start_in_range, newWSPullReceiver_in_range.
  - intros h. reflexivity.
  - intros results.
    destruct (run_Start_in_range newWSPullReceiver results newWSPullReceiver_in_range)
      as [Hw Hs].
    split.
    + eapply Forall_impl; [|exact Hw]. simpl. intros w [_ Hle]. exact Hle.
    + apply Hs.
Qed.

Example pull_backoff_doubling :
  fst (run_Start newWSPullReceiver (repeat (Some "dial") 12)) =
  [Second; 2 * Second; 4 * Second; 8 * Second; 16 * Second; 32 * Second;
   64 * Second; 128 * Second; 256 * Second; 512 * Second; 600 * Second; 600 * Second].
Proof. vm_compute. reflexivity. Qed.

(** ** HTTP/WebSocket exporter *)

Lemma httpServer_step_data (h : httpServerExporter) (ev : httpEvent) :
  (httpServer_step h ev).(h_data) = h.(h_data).
Proof. destruct ev; reflexivity. Qed.

Lemma httpServer_run_data (h : httpServerExporter) (evs : list httpEvent) :
  (httpServer_run h evs).(h_data) = h.(h_data).
Proof.
  unfold httpServer_run. revert h.
  induction evs as [|ev evs IH]; intros h; simpl; [reflexivity|].
  rewrite IH. apply httpServer_step_data.
Qed.

(** C4 (the code's behaviour): [Update] never stores the record in
    [h.data], so a subscriber connecting after any sequence of updates and
    connections, even one ending in an update, gets no initial frame. *)
Theorem connectWS_no_initial_frame_after_update
    (evs : list httpEvent) (d : healthData) (k : string) (id : nat) :
  snd (connectWS (httpServer_run newHTTPServerExporter (evs ++ [EvUpdate d k])) id) = [].
Proof.
  unfold connectWS. simpl. rewrite httpServer_run_data. reflexivity.
Qed.

(** C5 (the code's behaviour): after the push [heartRate:80] is handled
    with the HTTP exporter registered, the receiver's record holds 80 but
    [GET /] on the exporter answers 404; in fact [GET /] answers 404 on
    every state the exporter reaches. *)
Theorem getLatest_not_found_after_push
    (ParseFloat : string -> option float) (now : time) :
  ParseFloat "80" = Some 80%float ->
  (let '(resp, h', _) :=
     dataHandler ParseFloat (newHDSReceiver [HTTPServer newHTTPServerExporter]) now
       (Some (mkHdsRequest "heartRate:80")) in
   resp.(status) = StatusOK /\ h'.(data).(HeartRate) = 80 /\
   match h'.(exporters) with
   | [HTTPServer hs] => getLatest hs = mkResponse StatusNotFound NoBody
   | _ => False
   end) /\
  (forall evs : list httpEvent,
     getLatest (httpServer_run newHTTPServerExporter evs) = mkResponse StatusNotFound NoBody).
Proof.
  intros Hp. split.
  - unfold dataHandler. simpl. rewrite Hp. vm_compute. repeat split; reflexivity.
  - intros evs. unfold getLatest. rewrite httpServer_run_data. reflexivity.
Qed.

Lemma getLatest_not_found_after_push_witness :
  sampleParseFloat "80" = Some 80%float /\
  (let '(resp, h', _) :=
     dataHandler sampleParseFloat (newHDSReceiver [HTTPServer newHTTPServerExporter]) 1000
       (Some (mkHdsRequest "heartRate:80")) in
   resp.(status) = StatusOK /\ h'.(data).(HeartRate) = 80 /\
   match h'.(exporters) with
   | [HTTPServer hs] => getLatest hs = mkResponse StatusNotFound NoBody
   | _ => False
   end) /\
  (forall evs : list httpEvent,
     getLatest (httpServer_run newHTTPServerExporter evs) = mkResponse StatusNotFound NoBody).
Proof.
  split; [reflexivity|].
  exact (getLatest_not_found_after_push sampleParseFloat 1000 eq_refl).
Defined.

(** C6: [Update] delivers its message to each client blocked on its
    channel and leaves every other client exactly as it was; what happens
    to one client depends on that client alone. *)
Theorem httpServer_Update_drops_busy_clients
    (h : httpServerExporter) (d : healthData) (k : string) :
  Forall2 (fun c c' =>
             c'.(ch) = c.(ch) /\
             (if c.(waiting)
              then c'.(received) = (c.(received) ++ [mkMsg d k])%list
              else c' = c))
          h.(clients) (fst (httpServer_Update h d k)).(clients).
Proof.
  simpl. induction h.(clients) as [|c cs IH]; simpl; constructor; [|exact IH].
  unfold trySend. destruct (waiting c); simpl; split; reflexivity.
Qed.

(** ** Prometheus exporter *)

Lemma Since_gt_window (now t : time) :
  (Since now t >? freshness_window) = (now - t >? freshness_window).
Proof.
  unfold Since, Sub, int64_min, int64_max, freshness_window, Second.
  assert (E : 2 ^ 63 = 9223372036854775808) by reflexivity. rewrite E.
  destruct (now - t >? 30 * 1000000000) eqn:G.
  - apply Z.gtb_lt in G. apply Z.gtb_lt. lia.
  - rewrite Z.gtb_ltb in G |- *. apply Z.ltb_ge in G. apply Z.ltb_ge. lia.
Qed.

(** C7: before any [Update], and whenever the last [Update]'s record has a
    zero time or a time more than 30 seconds before the scrape, the scrape
    gets 200 with an empty body; otherwise it gets 200 with a non-empty
    exposition whose [heart_rate] sample is the heart rate of the record of
    the last [Update]. *)
Theorem prometheus_scrape_freshness :
  (forall now : time, ServeHTTP newPrometheusExporter now = mkResponse StatusOK NoBody) /\
  (forall (p : prometheusExporter) (d : healthData) (k : string) (now : time),
     let p' := fst (prometheus_Update p d k) in
     (IsZero d.(Time) = true \/ now - d.(Time) > freshness_window) ->
     ServeHTTP p' now = mkResponse StatusOK NoBody) /\
  (forall (p : prometheusExporter) (d : healthData) (k : string) (now : time),
     let p' := fst (prometheus_Update p d k) in
     IsZero d.(Time) = false -> now - d.(Time) <= freshness_window ->
     exists samples,
       ServeHTTP p' now = mkResponse StatusOK (Exposition samples) /\
       samples <> [] /\ In ("heart_rate", float64_of_int d.(HeartRate)) samples).
Proof.
  split; [|split].
  - intros now. reflexivity.
  - intros p d k now p' H. unfold ServeHTTP, p'. simpl.
    rewrite Since_gt_window.
    destruct H as [H | H].
    + rewrite H. reflexivity.
    + apply Z.gt_lt, Z.gtb_lt in H. rewrite H, orb_true_r. reflexivity.
  - intros p d k now p' Hz Hf. unfold ServeHTTP, p'. simpl.
    rewrite Since_gt_window, Hz.
    assert (G : (now - Time d >? freshness_window) = false).
    { rewrite Z.gtb_ltb. apply Z.ltb_ge. lia. }
    rewrite G. simpl.
    eexists. split; [reflexivity|]. split; [discriminate|]. left. reflexivity.
Qed.

Example prometheus_scrape_example :
  ServeHTTP (fst (prometheus_Update newPrometheusExporter sample_record "heartRate"))
    (1000 + 5 * Second)
  = mkResponse StatusOK (Exposition (registry_samples (mkProm sample_record))) /\
  ServeHTTP (fst (prometheus_Update newPrometheusExporter sample_record "heartRate"))
    (1000 + 31 * Second)
  = mkResponse StatusOK NoBody.
Proof. split; vm_compute; reflexivity. Qed.

(** ** OSC exporter *)

(** C8 (counterexample): when the network refuses the datagram, an
    [Update] for [heartRate] sends no message at all: the OSC client's
    [Send] fails and [Update] returns its error. *)
Lemma osc_Update_send_failure_nothing_sent :
  let o := newOSCExporter udp_down "/avatar/parameters/HeartRate" in
  (fst (osc_Update o sample_record "heartRate")).(outbox) = [] /\
  snd (osc_Update o sample_record "heartRate") =
    Some "dial udp: lookup vrchat.invalid: no such host".
Proof. split; reflexivity. Qed.

(** C8 (amended): for a key other than [heartRate] and [all] the OSC
    exporter sends nothing, makes no call to the client and returns no
    error; for those two keys it hands exactly one message to the client's
    [Send], to its address, carrying [float64(heartRate) / 256]: the
    message is sent and no error is returned when the send succeeds, and
    nothing is sent and the send's error is returned when it fails; a heart
    rate of 80 gives 0.3125. *)
Theorem osc_Update_heart_rate_only :
  forall (addr : string) (out : list (string * float)) (net : nat -> option string)
         (n : nat) (d : healthData) (k : string),
  let o := mkOSC 256%float addr out net n in
  (k <> "heartRate" -> k <> "all" -> osc_Update o d k = (o, None)) /\
  ((k = "heartRate" \/ k = "all") ->
     osc_Update o d k =
       match net n with
       | None =>
           (mkOSC 256%float addr (out ++ [(addr, (float64_of_int d.(HeartRate) / 256)%float)])%list
              net (S n), None)
       | Some err => (mkOSC 256%float addr out net (S n), Some err)
       end) /\
  ((k = "heartRate" \/ k = "all") -> d.(HeartRate) = 80 -> net n = None ->
     (fst (osc_Update o d k)).(outbox) = (out ++ [(addr, 0.3125%float)])%list).
Proof.
  intros addr out net n d k o.
  assert (Hsend : (k = "heartRate" \/ k = "all") ->
     osc_Update o d k =
       match net n with
       | None =>
           (mkOSC 256%float addr (out ++ [(addr, (float64_of_int d.(HeartRate) / 256)%float)])%list
              net (S n), None)
       | Some err => (mkOSC 256%float addr out net (S n), Some err)
       end).
  { intros [-> | ->]; reflexivity. }
  split; [|split; [exact Hsend|]].
  - intros H1 H2. unfold osc_Update.
    apply String.eqb_neq in H1, H2. rewrite H1, H2. reflexivity.
  - intros Hk Hr Hn. rewrite (Hsend Hk), Hn. simpl. rewrite Hr. reflexivity.
Qed.

Lemma newOSCExporter_form (net : nat -> option string) (addr : string) :
  newOSCExporter net addr = mkOSC 256%float addr [] net 0.
Proof. reflexivity. Qed.

(** ** The push receiver over a sequence of requests *)

Lemma dataHandler_data (ParseFloat : string -> option float) (h : hdsReceiver)
    (now : time) (req : option hdsRequest) :
  (snd (fst (dataHandler ParseFloat h now req))).(data) =
  match parse_push ParseFloat req with
  | Some (k, v) => fst (Update h.(data) now k v)
  | None => h.(data)
  end.
Proof.
  unfold dataHandler, parse_push.
  destruct req as [r|]; [|reflexivity].
  destruct (split_colon r.(Data)) as [|k [|v [|x l]]]; try reflexivity.
  destruct (ParseFloat v) as [value|]; [|reflexivity].
  destruct (Update h.(data) now k value) as [d' w].
  destruct (notify h.(exporters) d' k). reflexivity.
Qed.

Lemma dataHandler_state_malformed (ParseFloat : string -> option float) (h : hdsReceiver)
    (now : time) (req : option hdsRequest) :
  parse_push ParseFloat req = None ->
  snd (fst (dataHandler ParseFloat h now req)) = h.
Proof.
  unfold dataHandler, parse_push.
  destruct req as [r|]; [|reflexivity].
  destruct (split_colon r.(Data)) as [|k [|v [|x l]]]; try reflexivity.
  destruct (ParseFloat v) as [value|]; [discriminate|reflexivity].
Qed.

Lemma dataHandler_state_valid (ParseFloat : string -> option float) (h : hdsReceiver)
    (now : time) (req : option hdsRequest) (k : string) (v : float) :
  parse_push ParseFloat req = Some (k, v) ->
  snd (fst (dataHandler ParseFloat h now req)) =
    mkHdsReceiver (fst (notify h.(exporters) (fst (Update h.(data) now k v)) k))
                  (fst (Update h.(data) now k v)).
Proof.
  unfold dataHandler, parse_push.
  destruct req as [r|]; [|discriminate].
  destruct (split_colon r.(Data)) as [|k' [|v' [|x l]]]; try discriminate.
  destruct (ParseFloat v') as [value|]; [|discriminate].
  intros E. injection E as -> ->.
  destruct (Update h.(data) now k v) as [d' w]. simpl.
  destruct (notify h.(exporters) d' k). reflexivity.
Qed.

Ltac update_cases :=
  unfold Update;
  repeat match goal with
         | |- context [String.eqb ?k ?s] =>
             let E := fresh "E" in destruct (String.eqb k s) eqn:E
         end;
  repeat match goal with H : String.eqb _ _ = true |- _ => apply String.eqb_eq in H; subst end;
  simpl; try reflexivity; try discriminate.

Lemma Update_HeartRate d now k v :
  (fst (Update d now k v)).(HeartRate) =
  if String.eqb k "heartRate" then go_int_of_float v else d.(HeartRate).
Proof. update_cases. Qed.

Lemma Update_StepCount d now k v :
  (fst (Update d now k v)).(StepCount) =
  if String.eqb k "stepCount" then go_int_of_float v else d.(StepCount).
Proof. update_cases. Qed.

Lemma Update_DistanceTraveled d now k v :
  (fst (Update d now k v)).(DistanceTraveled) =
  if String.eqb k "distanceTraveled" then v else d.(DistanceTraveled).
Proof. update_cases. Qed.

Lemma Update_Speed d now k v :
  (fst (Update d now k v)).(Speed) =
  if String.eqb k "speed" then v else d.(Speed).
Proof. update_cases. Qed.

Lemma Update_Calories d now k v :
  (fst (Update d now k v)).(Calories) =
  if String.eqb k "calories" then go_int_of_float v else d.(Calories).
Proof. update_cases. Qed.

Lemma Update_Time d now k v : (fst (Update d now k v)).(Time) = now.
Proof. update_cases. Qed.

Section FieldTracking.

Context {A : Type} (get : healthData -> A) (key : string) (conv : float -> A).
Hypothesis Hget : forall d now k v,
  get (fst (Update d now k v)) = if String.eqb k key then conv v else get d.

Lemma run_handler_field (ParseFloat : string -> option float)
    (reqs : list (time * option hdsRequest)) :
  forall (h : hdsReceiver) (acc : option float) (base : A),
  get h.(data) = match acc with Some v => conv v | None => base end ->
  get (run_handler ParseFloat h reqs).(data) =
  match last_value_from ParseFloat key acc reqs with Some v => conv v | None => base end.
Proof.
  induction reqs as [|[now req] rest IH]; intros h acc base Hh; simpl; [exact Hh|].
  apply IH. rewrite dataHandler_data.
  destruct (parse_push ParseFloat req) as [[k v]|]; [|exact Hh].
  rewrite Hget. destruct (String.eqb k key); [reflexivity|exact Hh].
Qed.

End FieldTracking.

Lemma run_handler_time (ParseFloat : string -> option float)
    (reqs : list (time * option hdsRequest)) :
  forall (h : hdsReceiver) (acc : option time) (base : time),
  h.(data).(Time) = match acc with Some t => t | None => base end ->
  (run_handler ParseFloat h reqs).(data).(Time) =
  match last_time_from ParseFloat acc reqs with Some t => t | None => base end.
Proof.
  induction reqs as [|[now req] rest IH]; intros h acc base Hh; simpl; [exact Hh|].
  apply IH. rewrite dataHandler_data.
  destruct (parse_push ParseFloat req) as [[k v]|]; [|exact Hh].
  apply Update_Time.
Qed.

(** After any sequence of requests, each field of the receiver's record
    holds the (converted) value of the last well-formed request for its key,
    or its initial value when there was none; the time is the instant of the
    last well-formed request (whatever its key), or the initial time.
    Malformed requests leave no trace. *)
Theorem run_handler_latest_values
    (ParseFloat : string -> option float) (h : hdsReceiver)
    (reqs : list (time * option hdsRequest)) :
  let d := (run_handler ParseFloat h reqs).(data) in
  d.(HeartRate) = match last_value ParseFloat "heartRate" reqs with
                  | Some v => go_int_of_float v | None => h.(data).(HeartRate) end /\
  d.(StepCount) = match last_value ParseFloat "stepCount" reqs with
                  | Some v => go_int_of_float v | None => h.(data).(StepCount) end /\
  d.(DistanceTraveled) = match last_value ParseFloat "distanceTraveled" reqs with
                  | Some v => v | None => h.(data).(DistanceTraveled) end /\
  d.(Speed) = match last_value ParseFloat "speed" reqs with
                  | Some v => v | None => h.(data).(Speed) end /\
  d.(Calories) = match last_value ParseFloat "calories" reqs with
                  | Some v => go_int_of_float v | None => h.(data).(Calories) end /\
  d.(Time) = match last_time ParseFloat reqs with
                  | Some t => t | None => h.(data).(Time) end.
Proof.
  cbv zeta. unfold last_value, last_time.
  repeat split.
  - apply (run_handler_field HeartRate "heartRate" go_int_of_float Update_HeartRate); reflexivity.
  - apply (run_handler_field StepCount "stepCount" go_int_of_float Update_StepCount); reflexivity.
  - apply (run_handler_field DistanceTraveled "distanceTraveled" (fun v => v)
             Update_DistanceTraveled); reflexivity.
  - apply (run_handler_field Speed "speed" (fun v => v) Update_Speed); reflexivity.
  - apply (run_handler_field Calories "calories" go_int_of_float Update_Calories); reflexivity.
  - apply run_handler_time; reflexivity.
Qed.

Lemma notify_prometheus_data (es : list exporter) (d : healthData) (k : string) :
  Forall (fun e => match e with Prometheus p => p.(p_data) = d | _ => True end)
         (fst (notify es d k)).
Proof.
  induction es as [|e es IH]; simpl; [constructor|].
  destruct e as [hs|o|p]; simpl;
  [ destruct (httpServer_Update hs d k) as [e' err]
  | destruct (osc_Update o d k) as [e' err]
  | ];
  destruct (notify es d k) as [es' calls]; simpl in *; constructor; auto.
Qed.

(** Every Prometheus exporter registered with the push receiver holds the
    receiver's record: this holds at start-up and after every request,
    whatever the requests are. *)
Theorem run_handler_prometheus_synced
    (ParseFloat : string -> option float) (h : hdsReceiver)
    (reqs : list (time * option hdsRequest)) :
  prom_synced h -> prom_synced (run_handler ParseFloat h reqs).
Proof.
  revert h. induction reqs as [|[now req] rest IH]; intros h Hs; simpl; [exact Hs|].
  apply IH.
  destruct (parse_push ParseFloat req) as [[k v]|] eqn:E.
  - rewrite (dataHandler_state_valid _ _ _ _ _ _ E). unfold prom_synced. simpl.
    apply notify_prometheus_data.
  - rewrite (dataHandler_state_malformed _ _ _ _ E). exact Hs.
Qed.

Lemma run_handler_prometheus_synced_witness :
  prom_synced (newHDSReceiver [HTTPServer newHTTPServerExporter; Prometheus newPrometheusExporter]) /\
  prom_synced (run_handler sampleParseFloat
                 (newHDSReceiver [HTTPServer newHTTPServerExporter; Prometheus newPrometheusExporter])
                 [(5, Some (mkHdsRequest "heartRate:80")); (6, Some (mkHdsRequest "speed:x"))]).
Proof.
  assert (H0 : prom_synced (newHDSReceiver [HTTPServer newHTTPServerExporter;
                                             Prometheus newPrometheusExporter])).
  { unfold prom_synced. simpl. repeat constructor. }
  split; [exact H0|].
  exact (run_handler_prometheus_synced sampleParseFloat _
           [(5, Some (mkHdsRequest "heartRate:80")); (6, Some (mkHdsRequest "speed:x"))] H0).
Defined.

(** ** WebSocket subscribers: registration, removal, in-flight messages *)

Lemma Without_fresh (cs : list wsClient) (id : nat) :
  ~ In id (map ch cs) -> Without cs id = cs.
Proof.
  induction cs as [|c cs IH]; simpl; intros Hn; [reflexivity|].
  destruct (Nat.eqb c.(ch) id) eqn:E.
  - apply Nat.eqb_eq in E. exfalso. apply Hn. left. exact E.
  - simpl. f_equal. apply IH. tauto.
Qed.

(** A client that connects on a channel not yet registered and then
    disconnects leaves the exporter exactly as it found it. *)
Theorem connectWS_disconnect_roundtrip (h : httpServerExporter) (id : nat) :
  ~ In id (map ch h.(clients)) ->
  disconnectWS (fst (connectWS h id)) id = h.
Proof.
  intros Hn. destruct h as [cs d]. unfold disconnectWS, connectWS. simpl in *.
  unfold Without. rewrite filter_app. simpl. rewrite Nat.eqb_refl. simpl.
  rewrite app_nil_r. fold (Without cs id). rewrite (Without_fresh cs id Hn). reflexivity.
Qed.

Lemma connectWS_disconnect_roundtrip_witness :
  ~ In 2%nat (map ch (clients (fst (connectWS newHTTPServerExporter 1)))) /\
  disconnectWS (fst (connectWS (fst (connectWS newHTTPServerExporter 1)) 2)) 2
    = fst (connectWS newHTTPServerExporter 1).
Proof.
  assert (Hn : ~ In 2%nat (map ch (clients (fst (connectWS newHTTPServerExporter 1))))).
  { simpl. intros [E|[]]. discriminate E. }
  split; [exact Hn|].
  exact (connectWS_disconnect_roundtrip (fst (connectWS newHTTPServerExporter 1)) 2 Hn).
Defined.

Lemma httpServer_updates_clients (us : list (healthData * string)) :
  forall h : httpServerExporter,
  (httpServer_updates h us).(clients) =
  map (fun c => fold_left (fun c '(d, k) => trySend c (mkMsg d k)) us c) h.(clients).
Proof.
  induction us as [|[d k] us IH]; intros h; simpl.
  - symmetry. apply map_id.
  - unfold httpServer_updates in IH |- *. simpl. rewrite IH. simpl.
    rewrite map_map. reflexivity.
Qed.

Lemma trySends_idle (us : list (healthData * string)) (c : wsClient) :
  c.(waiting) = false ->
  fold_left (fun c '(d, k) => trySend c (mkMsg d k)) us c = c.
Proof.
  revert c. induction us as [|[d k] us IH]; intros c Hw; simpl; [reflexivity|].
  unfold trySend at 2. rewrite Hw. apply IH. exact Hw.
Qed.

(** Once a client is deregistered, no later [Update] reaches it: none of
    the exporter's clients is on its channel any more. *)
Theorem disconnectWS_no_delivery (h : httpServerExporter) (id : nat)
    (us : list (healthData * string)) :
  Forall (fun c => c.(ch) <> id) (httpServer_updates (disconnectWS h id) us).(clients).
Proof.
  rewrite httpServer_updates_clients. simpl.
  apply Forall_map. apply Forall_forall. intros c Hin.
  unfold Without in Hin. apply filter_In in Hin as [_ Hne].
  assert (Hch : forall c', (fold_left (fun c '(d, k) => trySend c (mkMsg d k)) us c').(ch)
                           = c'.(ch)).
  { clear. induction us as [|[d k] us IH]; intros c'; simpl; [reflexivity|].
    rewrite IH. unfold trySend. destruct (waiting c'); reflexivity. }
  rewrite Hch. destruct (Nat.eqb c.(ch) id) eqn:E; [discriminate|].
  apply Nat.eqb_neq. exact E.
Qed.

(** At most one message is in flight per client: over any run of
    [Update]s during which no client finishes a write, a client that was
    waiting receives the first message only, and a busy client receives
    nothing. *)
Theorem httpServer_updates_one_in_flight (h : httpServerExporter)
    (us : list (healthData * string)) :
  Forall2 (fun c c' =>
             c'.(ch) = c.(ch) /\
             c'.(received) =
               (c.(received) ++
                match us with
                | [] => []
                | (d, k) :: _ => if c.(waiting) then [mkMsg d k] else []
                end)%list)
          h.(clients) (httpServer_updates h us).(clients).
Proof.
  rewrite httpServer_updates_clients.
  induction h.(clients) as [|c cs IH]; simpl; constructor; [|exact IH].
  destruct us as [|[d k] us]; simpl.
  - rewrite app_nil_r. split; reflexivity.
  - destruct (waiting c) eqn:Hw.
    + assert (Ht : trySend c (mkMsg d k) = mkClient c.(ch) false (c.(received) ++ [mkMsg d k]))
        by (unfold trySend; rewrite Hw; reflexivity).
      rewrite Ht, trySends_idle by reflexivity. simpl. split; reflexivity.
    + assert (Ht : trySend c (mkMsg d k) = c) by (unfold trySend; rewrite Hw; reflexivity).
      rewrite Ht, trySends_idle by exact Hw. rewrite app_nil_r. split; reflexivity.
Qed.

(** After its goroutine has written the message it took, a client is
    waiting again and the next [Update] reaches it. *)
Theorem writeDone_then_delivered (h : httpServerExporter) (id : nat)
    (d : healthData) (k : string) :
  Forall2 (fun c c' =>
             c'.(ch) = c.(ch) /\
             c'.(received) =
               (c.(received) ++ (if Nat.eqb c.(ch) id || c.(waiting) then [mkMsg d k] else []))%list)
          h.(clients) (fst (httpServer_Update (writeDone h id) d k)).(clients).
Proof.
  simpl. induction h.(clients) as [|c cs IH]; simpl; constructor; [|exact IH].
  destruct (Nat.eqb c.(ch) id); simpl.
  - split; reflexivity.
  - unfold trySend. destruct (waiting c); simpl.
    + split; reflexivity.
    + rewrite app_nil_r. split; reflexivity.
Qed.

(** ** Pull receiver sessions *)

Definition call_args (calls : list (exporter * healthData * string)) : list (healthData * string) :=
  map (fun '(_, d, k) => (d, k)) calls.

Lemma notify_length (es : list exporter) (d : healthData) (k : string) :
  List.length (fst (notify es d k)) = List.length es.
Proof.
  induction es as [|e es IH]; simpl; [reflexivity|].
  destruct (exporter_Update e d k) as [e' err].
  destruct (notify es d k) as [es' calls]. simpl in *. rewrite IH. reflexivity.
Qed.

Lemma notify_call_args (es : list exporter) (d : healthData) (k : string) :
  call_args (snd (notify es d k)) = repeat (d, k) (List.length es).
Proof.
  unfold call_args. rewrite notify_calls, map_map.
  induction es as [|e es IH]; simpl; [reflexivity|]. rewrite IH. reflexivity.
Qed.

Lemma notify_kinds (es : list exporter) (d : healthData) (k : string) :
  map exporter_kind (fst (notify es d k)) = map exporter_kind es.
Proof.
  induction es as [|e es IH]; simpl; [reflexivity|].
  assert (Ek : exporter_kind (fst (exporter_Update e d k)) = exporter_kind e).
  { destruct e as [hs|o|p]; simpl;
      [ destruct (httpServer_Update hs d k) | destruct (osc_Update o d k) | ]; reflexivity. }
  destruct (exporter_Update e d k) as [e' err].
  destruct (notify es d k) as [es' calls]. simpl in *. rewrite Ek, IH. reflexivity.
Qed.

Definition call_kinds (calls : list (exporter * healthData * string)) : list exporterKind :=
  map (fun '(e, _, _) => exporter_kind e) calls.

(** A session that reads messages that all decode, then a final read that
    ends it (end of stream, a read error, or a message that does not
    decode), calls, for each decoded message in turn, every registered
    exporter exactly once and in registration order, with that message's
    record and key, and makes no call after the final read; the exporters
    keep their kinds and order, and the session returns no error exactly
    when the final read is the end of the stream. *)
Theorem connect_loop_session (DecodeMsg : string -> option wsUpdateMessage)
    (es : list exporter) (raws : list string) (msgs : list wsUpdateMessage)
    (t : readEvent) (rest : list readEvent) :
  map DecodeMsg raws = map Some msgs ->
  match t with ReadMsg r => DecodeMsg r = None | _ => True end ->
  let '(es', calls, res) := connect_loop DecodeMsg es ((map ReadMsg raws ++ t :: rest)%list) in
  calls = session_calls es msgs /\
  call_kinds calls = flat_map (fun _ => map exporter_kind es) msgs /\
  call_args calls =
    flat_map (fun m => repeat (m.(msg_Data), m.(UpdatedKey)) (List.length es)) msgs /\
  map exporter_kind es' = map exporter_kind es /\
  res = match t with
        | ReadEOF => Some None
        | ReadError e => Some (Some (String.append "reading websocket: " e))
        | ReadMsg _ => Some (Some "decoding websocket message")
        end.
Proof.
  intros Hd Ht. revert es msgs Hd.
  induction raws as [|raw raws IH]; intros es msgs Hd; destruct msgs as [|m msgs];
    simpl in Hd; try discriminate Hd.
  - simpl. destruct t as [r| |e]; simpl; [rewrite Ht|..]; repeat split; reflexivity.
  - injection Hd as Hraw Hd. simpl. rewrite Hraw.
    pose proof (notify_calls es m.(msg_Data) m.(UpdatedKey)) as Hcs.
    pose proof (notify_call_args es m.(msg_Data) m.(UpdatedKey)) as Hc.
    pose proof (notify_length es m.(msg_Data) m.(UpdatedKey)) as Hl.
    pose proof (notify_kinds es m.(msg_Data) m.(UpdatedKey)) as Hk.
    destruct (notify es m.(msg_Data) m.(UpdatedKey)) as [es' calls]. simpl in Hcs, Hc, Hl, Hk.
    specialize (IH es' msgs Hd).
    destruct (connect_loop DecodeMsg es' ((map ReadMsg raws ++ t :: rest)%list))
      as [[es'' calls'] res].
    destruct IH as (IHs & IHk & IHc & IHe & IHr).
    split; [|split; [|split; [|split]]].
    + rewrite Hcs, IHs. reflexivity.
    + unfold call_kinds in *. rewrite map_app, IHk, Hk, Hcs, map_map. reflexivity.
    + unfold call_args in *. rewrite map_app, Hc, IHc, Hl. reflexivity.
    + rewrite IHe. exact Hk.
    + exact IHr.
Qed.

Definition sampleDecodeMsg (raw : string) : option wsUpdateMessage :=
  if String.eqb raw "m80" then Some (mkMsg sample_record "heartRate") else None.

Lemma connect_loop_session_witness :
  map sampleDecodeMsg ["m80"; "m80"] = map Some [mkMsg sample_record "heartRate";
                                                  mkMsg sample_record "heartRate"] /\
  (match ReadMsg "{" with ReadMsg r => sampleDecodeMsg r = None | _ => True end) /\
  let es := [OSC (newOSCExporter udp_ok "/avatar/parameters/HeartRate");
             Prometheus newPrometheusExporter] in
  let '(es', calls, res) :=
    connect_loop sampleDecodeMsg es
      ((map ReadMsg ["m80"; "m80"] ++ ReadMsg "{" :: [ReadEOF])%list) in
  calls = session_calls es [mkMsg sample_record "heartRate"; mkMsg sample_record "heartRate"] /\
  call_kinds calls = flat_map (fun _ => map exporter_kind es)
      [mkMsg sample_record "heartRate"; mkMsg sample_record "heartRate"] /\
  call_args calls =
    flat_map (fun m => repeat (m.(msg_Data), m.(UpdatedKey)) (List.length es))
      [mkMsg sample_record "heartRate"; mkMsg sample_record "heartRate"] /\
  map exporter_kind es' = map exporter_kind es /\
  res = Some (Some "decoding websocket message").
Proof.
  split; [reflexivity|]. split; [reflexivity|].
  exact (connect_loop_session sampleDecodeMsg
           [OSC (newOSCExporter udp_ok "/avatar/parameters/HeartRate");
            Prometheus newPrometheusExporter]
           ["m80"; "m80"] [mkMsg sample_record "heartRate"; mkMsg sample_record "heartRate"]
           (ReadMsg "{") [ReadEOF] eq_refl eq_refl).
Defined.

Lemma pull_Start_in_range (DecodeMsg : string -> option wsUpdateMessage)
    (dials : list dialResult) :
  forall (h : wsPullReceiver) (es : list exporter),
  backoff_in_range h ->
  Forall (fun w => Second <= w <= wsPullMaxBackoff) (fst (fst (pull_Start DecodeMsg h es dials))) /\
  backoff_in_range (snd (fst (pull_Start DecodeMsg h es dials))).
Proof.
  induction dials as [|dial rest IH]; intros h es Hr; simpl; [split; [constructor|exact Hr]|].
  destruct (connect DecodeMsg es dial) as [[es' calls] res].
  destruct res as [err|]; simpl; [|split; [constructor|exact Hr]].
  pose proof (reconnect_step_in_range h err Hr) as [Hw Hs].
  destruct (reconnect_step h err) as [wait h']. simpl in Hw, Hs.
  specialize (IH h' es' Hs).
  destruct (pull_Start DecodeMsg h' es' rest) as [[waits hf] esf]. simpl in *.
  destruct IH as [IHw IHs]. split; [constructor; assumption | exact IHs].
Qed.

(** Whatever the connections do (dial failures, read errors, undecodable
    messages, clean ends, any messages in between), every sleep of the pull
    receiver's loop lasts between one second and ten minutes. *)
Theorem pull_Start_sleeps_bounded (DecodeMsg : string -> option wsUpdateMessage)
    (es : list exporter) (dials : list dialResult) :
  Forall (fun w => Second <= w <= wsPullMaxBackoff)
         (fst (fst (pull_Start DecodeMsg newWSPullReceiver es dials))).
Proof.
  apply pull_Start_in_range, newWSPullReceiver_in_range.
Qed.

(** ** Build information *)

Lemma init_setting_none (v : versionInfo) (s : buildSetting) :
  init_setting v s = None <-> s.(Key) = "vcs.revision" /\ (String.length s.(Value) < 7)%nat.
Proof.
  unfold init_setting.
  destruct (String.eqb s.(Key) "vcs.revision") eqn:E.
  - apply String.eqb_eq in E. destruct (String.length s.(Value) <? 7)%nat eqn:L.
    + apply Nat.ltb_lt in L. split; [intros _; split; assumption | reflexivity].
    + apply Nat.ltb_ge in L. split; [discriminate | intros [_ H]; lia].
  - apply String.eqb_neq in E. split; [discriminate | intros [H _]; contradiction].
Qed.

Lemma init_setting_some (v v' : versionInfo) (s : buildSetting) :
  init_setting v s = Some v' ->
  v'.(version) = v.(version) /\
  v'.(revision) = (if String.eqb s.(Key) "vcs.revision" then substring 0 7 s.(Value)
                   else v.(revision)) /\
  v'.(buildDirty) = (if String.eqb s.(Key) "vcs.modified" then String.eqb s.(Value) "true"
                     else v.(buildDirty)) /\
  v'.(buildTime) = (if String.eqb s.(Key) "vcs.time" then s.(Value) else v.(buildTime)).
Proof.
  unfold init_setting.
  destruct (String.eqb s.(Key) "vcs.revision") eqn:E1.
  - destruct (String.length s.(Value) <? 7)%nat; [discriminate|].
    apply String.eqb_eq in E1. rewrite E1. simpl.
    intros H; injection H as <-. simpl. repeat split; reflexivity.
  - destruct (String.eqb s.(Key) "vcs.modified") eqn:E2;
    destruct (String.eqb s.(Key) "vcs.time") eqn:E3;
    intros H; injection H as <-; simpl; repeat split; try reflexivity;
    apply String.eqb_eq in E2; apply String.eqb_eq in E3; congruence.
Qed.

Lemma init_settings_none (ss : list buildSetting) :
  forall v : versionInfo,
  init_settings v ss = None <->
  Exists (fun s => s.(Key) = "vcs.revision" /\ (String.length s.(Value) < 7)%nat) ss.
Proof.
  induction ss as [|s ss IH]; intros v; simpl.
  - split; [discriminate | intros H; inversion H].
  - destruct (init_setting v s) as [v'|] eqn:E.
    + rewrite IH. split; [intros H; right; exact H|].
      intros H; inversion H as [? ? Hs| ? ? Hs]; subst; [|exact Hs].
      apply (proj2 (init_setting_none v s)) in Hs. rewrite Hs in E. discriminate.
    + split; [intros _; left; apply (proj1 (init_setting_none v s)); exact E | reflexivity].
Qed.

(** [init] panics (on [setting.Value[:7]]) exactly when some
    [vcs.revision] setting has a value shorter than 7 bytes, wherever it
    occurs in the settings. *)
Theorem init_panics_iff_short_revision (v : versionInfo) (mainVersion : string)
    (ss : list buildSetting) :
  init v (Some (mainVersion, ss)) = None <->
  Exists (fun s => s.(Key) = "vcs.revision" /\ (String.length s.(Value) < 7)%nat) ss.
Proof. apply init_settings_none. Qed.

(** When [init] does not panic: the version is kept if already set (by the
    linker) and taken from the main module otherwise; the revision is the
    first 7 bytes of the last [vcs.revision] setting; the dirty flag says
    whether the last [vcs.modified] setting is ["true"]; the build time is
    the last [vcs.time] setting; a field with no setting keeps its value. *)
Theorem init_result (v v' : versionInfo) (mainVersion : string) (ss : list buildSetting) :
  init v (Some (mainVersion, ss)) = Some v' ->
  v'.(version) = (if String.eqb v.(version) "" then mainVersion else v.(version)) /\
  v'.(revision) = match last_setting_from "vcs.revision" None ss with
                  | Some r => substring 0 7 r | None => v.(revision) end /\
  v'.(buildDirty) = match last_setting_from "vcs.modified" None ss with
                    | Some m => String.eqb m "true" | None => v.(buildDirty) end /\
  v'.(buildTime) = match last_setting_from "vcs.time" None ss with
                   | Some t => t | None => v.(buildTime) end.
Proof.
  unfold init.
  set (v0 := if String.eqb v.(version) "" then mkVersionInfo mainVersion v.(revision) v.(buildDirty) v.(buildTime) else v).
  assert (H0 : v0.(version) = (if String.eqb v.(version) "" then mainVersion else v.(version)) /\
               v0.(revision) = v.(revision) /\ v0.(buildDirty) = v.(buildDirty) /\
               v0.(buildTime) = v.(buildTime)).
  { unfold v0. destruct (String.eqb v.(version) ""); repeat split; reflexivity. }
  clearbody v0.
  remember (if String.eqb v.(version) "" then mainVersion else v.(version)) as ver.
  clear Heqver.
  destruct H0 as (Hv & Hr & Hd & Ht).
  assert (G : forall ss v0 ar ad at_,
    init_settings v0 ss = Some v' -> v0.(version) = ver ->
    v0.(revision) = match ar with Some r => substring 0 7 r | None => v.(revision) end ->
    v0.(buildDirty) = match ad with Some m => String.eqb m "true" | None => v.(buildDirty) end ->
    v0.(buildTime) = match at_ with Some t => t | None => v.(buildTime) end ->
    v'.(version) = ver /\
    v'.(revision) = match last_setting_from "vcs.revision" ar ss with
                    | Some r => substring 0 7 r | None => v.(revision) end /\
    v'.(buildDirty) = match last_setting_from "vcs.modified" ad ss with
                      | Some m => String.eqb m "true" | None => v.(buildDirty) end /\
    v'.(buildTime) = match last_setting_from "vcs.time" at_ ss with
                     | Some t => t | None => v.(buildTime) end).
  { clear. induction ss as [|s ss IH]; intros v0 ar ad at_ Hi Hv Hr Hd Ht; simpl in *.
    - injection Hi as <-. repeat split; assumption.
    - destruct (init_setting v0 s) as [v1|] eqn:E; [|discriminate].
      apply init_setting_some in E as (E1 & E2 & E3 & E4).
      apply (IH v1); [exact Hi | congruence | | | ].
      + rewrite E2. destruct (String.eqb s.(Key) "vcs.revision"); [reflexivity|exact Hr].
      + rewrite E3. destruct (String.eqb s.(Key) "vcs.modified"); [reflexivity|exact Hd].
      + rewrite E4. destruct (String.eqb s.(Key) "vcs.time"); [reflexivity|exact Ht]. }
  intros Hi. exact (G ss v0 None None None Hi Hv Hr Hd Ht).
Qed.

Lemma init_result_witness :
  init (mkVersionInfo "" "" false "")
       (Some ("v1.2.0", [mkSetting "vcs.revision" "0123456789abcdef";
                         mkSetting "vcs.modified" "true"]))
  = Some (mkVersionInfo "v1.2.0" "0123456" true "") /\
  let v' := mkVersionInfo "v1.2.0" "0123456" true "" in
  let ss := [mkSetting "vcs.revision" "0123456789abcdef"; mkSetting "vcs.modified" "true"] in
  v'.(version) = (if String.eqb "" "" then "v1.2.0" else "") /\
  v'.(revision) = match last_setting_from "vcs.revision" None ss with
                  | Some r => substring 0 7 r | None => "" end /\
  v'.(buildDirty) = match last_setting_from "vcs.modified" None ss with
                    | Some m => String.eqb m "true" | None => false end /\
  v'.(buildTime) = match last_setting_from "vcs.time" None ss with
                   | Some t => t | None => "" end.
Proof.
  assert (Hi : init (mkVersionInfo "" "" false "")
       (Some ("v1.2.0", [mkSetting "vcs.revision" "0123456789abcdef";
                         mkSetting "vcs.modified" "true"]))
       = Some (mkVersionInfo "v1.2.0" "0123456" true "")) by reflexivity.
  split; [exact Hi|].
  exact (init_result (mkVersionInfo "" "" false "") (mkVersionInfo "v1.2.0" "0123456" true "")
           "v1.2.0" [mkSetting "vcs.revision" "0123456789abcdef"; mkSetting "vcs.modified" "true"] Hi).
Defined.

Lemma append_length (a b : string) :
  String.length (String.append a b) = (String.length a + String.length b)%nat.
Proof. induction a as [|c a IH]; simpl; [reflexivity|]. rewrite IH. reflexivity. Qed.

(** [GetFormattedVersion] returns the bare version exactly when there is
    no revision, the build is not dirty and there is no build time;
    otherwise it returns [version (meta)]. *)
Theorem GetFormattedVersion_bare_iff (v : versionInfo) :
  GetFormattedVersion v = v.(version) <->
  v.(revision) = "" /\ v.(buildDirty) = false /\ v.(buildTime) = "".
Proof.
  unfold GetFormattedVersion. split.
  - destruct (String.eqb _ "") eqn:E.
    + intros _. apply String.eqb_eq in E.
      destruct v as [ver rev dirty bt]; simpl in *.
      destruct rev; [|discriminate]. simpl in E.
      destruct dirty; [discriminate|]. simpl in E.
      destruct (String.eqb bt "") eqn:Eb; [apply String.eqb_eq in Eb|discriminate].
      repeat split; assumption.
    + intros H. exfalso. apply (f_equal String.length) in H.
      rewrite !append_length in H. simpl in H. lia.
  - intros (Hr & Hd & Ht). rewrite Hr, Hd, Ht. reflexivity.
Qed.

(** ** The heart-rate-only predecessor *)

Module LegacyFacts.

Lemma substring_full (s : string) : substring 0 (String.length s) s = s.
Proof. induction s as [|c s IH]; simpl; [reflexivity|]. rewrite IH. reflexivity. Qed.

Lemma trim_prefix_append (s : string) :
  Legacy.TrimPrefix (String.append Legacy.hdsDataPrefix s) = s.
Proof.
  unfold Legacy.TrimPrefix. simpl. rewrite Nat.sub_0_r. apply substring_full.
Qed.

Lemma prefix_append (p s : string) : String.prefix p (String.append p s) = true.
Proof.
  induction p as [|c p IH]; simpl; [destruct s; reflexivity|].
  destruct (ascii_dec c c) as [_|n]; [exact IH | contradiction].
Qed.

Lemma legacy_notify_calls (es : list Legacy.exporter) (rate : Z) (now : time) :
  snd (Legacy.notify es rate now) = map (fun e => (e, rate)) es.
Proof.
  induction es as [|e es IH]; simpl; [reflexivity|].
  destruct (Legacy.exporter_Send e rate now) as [e' err].
  destruct (Legacy.notify es rate now) as [es' calls]. simpl in *. rewrite IH. reflexivity.
Qed.

(** The predecessor's push handler accepts exactly the payloads
    [heartRate:<n>] where [strconv.Atoi] accepts [<n>]: it answers 200 and
    calls [Send(n)] on every exporter in order; any other payload is
    answered with 400 and no exporter is called. *)
Theorem legacy_dataHandler_prefix_atoi (es : list Legacy.exporter) (now : time) (s : string) :
  (let '(resp, es', calls) :=
     Legacy.dataHandler es now (Some (mkHdsRequest (String.append Legacy.hdsDataPrefix s))) in
   match Legacy.Atoi s with
   | Some rate => resp.(Legacy.l_status) = StatusOK /\ calls = map (fun e => (e, rate)) es
   | None => resp.(Legacy.l_status) = StatusBadRequest /\ es' = es /\ calls = []
   end) /\
  (String.prefix Legacy.hdsDataPrefix s = false ->
   let '(resp, es', calls) := Legacy.dataHandler es now (Some (mkHdsRequest s)) in
   resp.(Legacy.l_status) = StatusBadRequest /\ es' = es /\ calls = []).
Proof.
  split.
  - pose proof (prefix_append Legacy.hdsDataPrefix s) as Hpre.
    unfold Legacy.dataHandler. cbn [Data]. rewrite Hpre.
    cbn [negb]. rewrite trim_prefix_append.
    destruct (Legacy.Atoi s) as [rate|]; [|repeat split; reflexivity].
    pose proof (legacy_notify_calls es rate now) as Hc.
    destruct (Legacy.notify es rate now) as [es' calls]. simpl in *.
    split; [reflexivity | exact Hc].
  - intros Hp. unfold Legacy.dataHandler. cbn [Data]. rewrite Hp. simpl.
    repeat split; reflexivity.
Qed.

Lemma digits_val_app (s1 s2 : string) (a : Z) :
  Legacy.digits_val (String.append s1 s2) a =
  match Legacy.digits_val s1 a with Some b => Legacy.digits_val s2 b | None => None end.
Proof.
  revert a. induction s1 as [|c s1 IH]; intros a; simpl; [reflexivity|].
  destruct (_ && _); [apply IH | reflexivity].
Qed.

Lemma digit_char_code (d : Z) :
  0 <= d <= 9 -> Z.of_nat (nat_of_ascii (Legacy.digit_char d)) = 48 + d.
Proof.
  intros Hd. unfold Legacy.digit_char.
  rewrite nat_ascii_embedding by lia. rewrite Z2Nat.id by lia. reflexivity.
Qed.

Lemma digits_val_digit (d a : Z) :
  0 <= d <= 9 ->
  Legacy.digits_val (String (Legacy.digit_char d) EmptyString) a = Some (a * 10 + d).
Proof.
  intros Hd. simpl. rewrite digit_char_code by exact Hd.
  replace ((48 <=? 48 + d) && (48 + d <=? 57)) with true.
  - f_equal. lia.
  - symmetry. apply andb_true_iff. split; apply Z.leb_le; lia.
Qed.

Lemma itoa_nat_val (fuel : nat) :
  forall n : Z, 0 <= n < 10 ^ Z.of_nat fuel -> (0 < fuel)%nat ->
  Legacy.digits_val (Legacy.itoa_nat fuel n) 0 = Some n /\
  exists c rest, Legacy.itoa_nat fuel n = String c rest /\
                 48 <= Z.of_nat (nat_of_ascii c) <= 57.
Proof.
  induction fuel as [|f IH]; intros n Hn Hf; [lia|].
  simpl. destruct (n <? 10) eqn:E.
  - apply Z.ltb_lt in E. split.
    + rewrite digits_val_digit by lia. reflexivity.
    + eexists _, _. split; [reflexivity|]. rewrite digit_char_code by lia. lia.
  - apply Z.ltb_ge in E.
    assert (Hf' : (0 < f)%nat).
    { destruct f; [|lia]. simpl in Hn. lia. }
    assert (Hq : 0 <= n / 10 < 10 ^ Z.of_nat f).
    { split; [apply Z.div_pos; lia|].
      rewrite Nat2Z.inj_succ, Z.pow_succ_r in Hn by lia.
      apply Z.div_lt_upper_bound; lia. }
    destruct (IH (n / 10) Hq Hf') as [Hv (c & rest & Hs & Hc)].
    split.
    + rewrite digits_val_app, Hv, digits_val_digit.
      * f_equal. pose proof (Z.div_mod n 10). lia.
      * pose proof (Z.mod_pos_bound n 10). lia.
    + rewrite Hs. exists c, (String.append rest (String (Legacy.digit_char (n mod 10)) EmptyString)).
      split; [reflexivity | exact Hc].
Qed.

Lemma Atoi_decimal (n : Z) :
  int64_min <= n <= int64_max -> Legacy.Atoi (Legacy.Itoa n) = Some n.
Proof.
  intros Hn. unfold int64_min, int64_max in Hn.
  assert (E63 : 2 ^ 63 = 9223372036854775808) by reflexivity.
  assert (E20 : 10 ^ Z.of_nat 20 = 100000000000000000000) by reflexivity.
  rewrite E63 in Hn.
  assert (Hrange : forall v, (int64_min <=? v) && (v <=? int64_max) = true <->
                             -9223372036854775808 <= v <= 9223372036854775807).
  { intros v. unfold int64_min, int64_max. rewrite E63, andb_true_iff, !Z.leb_le. lia. }
  unfold Legacy.Itoa. destruct (n <? 0) eqn:Eneg.
  - apply Z.ltb_lt in Eneg.
    destruct (itoa_nat_val 20 (- n) ltac:(lia) ltac:(lia)) as [Hv (c & rest & Hs & Hc)].
    unfold Legacy.Atoi. rewrite Hs. cbn -[Legacy.digits_val int64_min int64_max].
    rewrite <- Hs, Hv. rewrite Z.opp_involutive.
    destruct ((int64_min <=? n) && (n <=? int64_max)) eqn:R; [reflexivity|].
    exfalso. assert (H := proj2 (Hrange n) ltac:(lia)). congruence.
  - apply Z.ltb_ge in Eneg.
    destruct (itoa_nat_val 20 n ltac:(lia) ltac:(lia)) as [Hv (c & rest & Hs & Hc)].
    unfold Legacy.Atoi. rewrite Hs.
    assert (Hm : Ascii.eqb c "-"%char = false).
    { apply Ascii.eqb_neq. intros ->. simpl in Hc. lia. }
    assert (Hp : Ascii.eqb c "+"%char = false).
    { apply Ascii.eqb_neq. intros ->. simpl in Hc. lia. }
    rewrite Hm, Hp. rewrite <- Hs, Hv.
    destruct ((int64_min <=? n) && (n <=? int64_max)) eqn:R; [reflexivity|].
    exfalso. assert (H := proj2 (Hrange n) ltac:(lia)). congruence.
Qed.

(** The predecessor's push handler accepts [heartRate:<n>] for every int64
    [n] written in decimal notation: it answers 200, calls [Send(n)] with
    exactly [n] on every exporter in registration order, and leaves each
    exporter as its [Send(n)] does. *)
Theorem legacy_dataHandler_accepts_int64 (es : list Legacy.exporter) (now : time) (n : Z) :
  int64_min <= n <= int64_max ->
  Legacy.dataHandler es now
    (Some (mkHdsRequest (String.append Legacy.hdsDataPrefix (Legacy.Itoa n)))) =
  (Legacy.mkLResponse StatusOK Legacy.LNoBody, fst (Legacy.notify es n now),
   map (fun e => (e, n)) es).
Proof.
  intros Hn.
  pose proof (prefix_append Legacy.hdsDataPrefix (Legacy.Itoa n)) as Hpre.
  unfold Legacy.dataHandler. cbn [Data]. rewrite Hpre.
  cbn [negb]. rewrite trim_prefix_append, (Atoi_decimal n Hn).
  pose proof (legacy_notify_calls es n now) as Hc.
  destruct (Legacy.notify es n now) as [es' calls]. simpl in *. rewrite Hc. reflexivity.
Qed.

Lemma legacy_dataHandler_accepts_int64_witness :
  int64_min <= -9223372036854775808 <= int64_max /\
  Legacy.dataHandler [Legacy.Prometheus Legacy.newPrometheusExporter] 5
    (Some (mkHdsRequest (String.append Legacy.hdsDataPrefix (Legacy.Itoa (-9223372036854775808))))) =
  (Legacy.mkLResponse StatusOK Legacy.LNoBody,
   fst (Legacy.notify [Legacy.Prometheus Legacy.newPrometheusExporter] (-9223372036854775808) 5),
   map (fun e => (e, -9223372036854775808)) [Legacy.Prometheus Legacy.newPrometheusExporter]).
Proof.
  assert (H : int64_min <= -9223372036854775808 <= int64_max).
  { unfold int64_min, int64_max. split; apply Z.leb_le; reflexivity. }
  split; [exact H|].
  exact (legacy_dataHandler_accepts_int64 [Legacy.Prometheus Legacy.newPrometheusExporter] 5 _ H).
Defined.

(** In the predecessor, [Send] records the rate and its instant in the
    HTTP exporter: after a [Send] at a non-zero instant, [GET /latest]
    answers 200 with that rate and instant, and a WebSocket client that
    connects then first receives a frame with them. *)
Theorem legacy_Send_then_latest (h : Legacy.httpServerExporter) (rate : Z) (now : time)
    (id : nat) :
  now <> zero_time ->
  Legacy.getLatest (fst (Legacy.httpServer_Send h rate now)) =
    Legacy.mkLResponse StatusOK (Legacy.LLatest rate now) /\
  snd (Legacy.connectWS (fst (Legacy.httpServer_Send h rate now)) id) =
    [Legacy.mkSenderMsg rate now].
Proof.
  intros Hnz. unfold Legacy.getLatest, Legacy.connectWS, IsZero. cbn.
  assert (E : (now =? 0) = false) by (apply Z.eqb_neq; exact Hnz).
  rewrite E. split; reflexivity.
Qed.

Lemma legacy_Send_then_latest_witness :
  (5 : time) <> zero_time /\
  Legacy.getLatest (fst (Legacy.httpServer_Send Legacy.newHTTPServerExporter 72 5)) =
    Legacy.mkLResponse StatusOK (Legacy.LLatest 72 5) /\
  snd (Legacy.connectWS (fst (Legacy.httpServer_Send Legacy.newHTTPServerExporter 72 5)) 1) =
    [Legacy.mkSenderMsg 72 5].
Proof.
  assert (H : (5 : time) <> zero_time) by (unfold zero_time; lia).
  split; [exact H|].
  exact (legacy_Send_then_latest Legacy.newHTTPServerExporter 72 5 1 H).
Defined.

(** In the predecessor, a scrape at [now] after a [Send] of [rate] at a
    non-zero instant [t] exposes [heart_rate] = [float64(rate)] while at
    most 30 seconds have passed, and is empty afterwards. *)
Theorem legacy_prometheus_freshness (p : Legacy.prometheusExporter) (rate : Z)
    (t now : time) :
  t <> zero_time ->
  (now - t <= freshness_window ->
     Legacy.ServeHTTP (fst (Legacy.prometheus_Send p rate t)) now =
       Legacy.mkLResponse StatusOK (Legacy.LExposition [("heart_rate", float64_of_int rate)])) /\
  (now - t > freshness_window ->
     Legacy.ServeHTTP (fst (Legacy.prometheus_Send p rate t)) now =
       Legacy.mkLResponse StatusOK Legacy.LNoBody).
Proof.
  intros Hnz. unfold Legacy.ServeHTTP, IsZero. cbn [fst Legacy.prometheus_Send
    Legacy.lastReceived Legacy.rateGauge].
  assert (E : (t =? 0) = false) by (apply Z.eqb_neq; exact Hnz).
  rewrite E, Since_gt_window. cbn [orb]. split; intros Hw.
  - assert (G : (now - t >? freshness_window) = false).
    { rewrite Z.gtb_ltb. apply Z.ltb_ge. lia. }
    rewrite G. reflexivity.
  - assert (G : (now - t >? freshness_window) = true).
    { apply Z.gtb_lt. lia. }
    rewrite G. reflexivity.
Qed.

Lemma legacy_prometheus_freshness_witness :
  (1 : time) <> zero_time /\
  Legacy.ServeHTTP (fst (Legacy.prometheus_Send Legacy.newPrometheusExporter 72 1)) (1 + Second) =
    Legacy.mkLResponse StatusOK (Legacy.LExposition [("heart_rate", float64_of_int 72)]) /\
  Legacy.ServeHTTP (fst (Legacy.prometheus_Send Legacy.newPrometheusExporter 72 1)) (2 + 31 * Second) =
    Legacy.mkLResponse StatusOK Legacy.LNoBody.
Proof.
  assert (H : (1 : time) <> zero_time) by (unfold zero_time; lia).
  split; [exact H|].
  destruct (legacy_prometheus_freshness Legacy.newPrometheusExporter 72 1 (1 + Second) H)
    as [A _].
  destruct (legacy_prometheus_freshness Legacy.newPrometheusExporter 72 1 (2 + 31 * Second) H)
    as [_ B].
  split; [apply A | apply B]; unfold freshness_window, Second; lia.
Defined.

End LegacyFacts.
